(** * Rapid Response Agent System: scoring, conflict resolution and routing

    A shallow embedding of [src/rapid_response_system.py] and the properties
    its specification states about it.

    Conventions of the embedding.
    - Python [int] is [Z]; [str] is [string] (a byte string: the text
      functions below are those of Python on ASCII text, and [int(...)]
      reads decimal literals of ASCII digits, of 4300 digits at most, the
      limit of the interpreter).
    - Wall-clock time is a number of microseconds, the resolution of
      [datetime]; [datetime.now()] and [time.time()] both observe the clock of
      the world, one observation per call, in program order.
    - The Gemini model is an oracle of the world: the n-th call answers a
      prompt with a text or fails.
    - Issue objects live in a store and are passed by reference, as Python
      passes them.  A method reads the object once, where it first reads an
      attribute of it: nothing writes to an issue between two reads of one
      method.
    - A dict with a fixed set of keys is a record; a dict that is looked up
      with [get] or by a key is a [gmap].
    - Methods are computations in a state-and-exception monad over the world;
      [print] appends a line to the console of the world. *)

From Stdlib Require Import ZArith String Ascii List Lia Floats.
From stdpp Require Import base option list gmap strings pretty.

Open Scope string_scope.
Open Scope list_scope.
Open Scope Z_scope.

(** ** Text *)

Module Text.

Definition nl : string := String "010" EmptyString.

Definition is_upper (c : ascii) : bool :=
  ((65 <=? nat_of_ascii c) && (nat_of_ascii c <=? 90))%nat.

Definition lower_char (c : ascii) : ascii :=
  if is_upper c then ascii_of_nat (nat_of_ascii c + 32) else c.

(** [str.lower()] *)
Fixpoint lower (s : string) : string :=
  match s with
  | EmptyString => EmptyString
  | String c s' => String (lower_char c) (lower s')
  end.

Fixpoint starts_with (p s : string) : bool :=
  match p, s with
  | EmptyString, _ => true
  | String a p', String b s' => if Ascii.eqb a b then starts_with p' s' else false
  | String _ _, EmptyString => false
  end.

(** [sub in s] on strings *)
Fixpoint contains (sub s : string) : bool :=
  starts_with sub s ||
  match s with
  | EmptyString => false
  | String _ s' => contains sub s'
  end.

(** [sep.join(parts)] *)
Fixpoint join (sep : string) (parts : list string) : string :=
  match parts with
  | [] => ""
  | [p] => p
  | p :: rest => p +:+ sep +:+ join sep rest
  end.

(** [s[:n]] *)
Fixpoint take (n : nat) (s : string) : string :=
  match n, s with
  | O, _ => ""
  | _, EmptyString => ""
  | S n', String c s' => String c (take n' s')
  end.

(** Whitespace as [str.strip()] and [str.split()] see it. *)
Definition is_whitespace (c : ascii) : bool :=
  let n := nat_of_ascii c in
  (((9 <=? n) && (n <=? 13)) || ((28 <=? n) && (n <=? 32)))%nat.

Fixpoint lstrip (s : string) : string :=
  match s with
  | String c s' => if is_whitespace c then lstrip s' else s
  | EmptyString => EmptyString
  end.

Fixpoint token (s : string) : string :=
  match s with
  | String c s' => if is_whitespace c then "" else String c (token s')
  | EmptyString => ""
  end.

(** [s.strip().split()[0]]: the first run of characters that are not
    whitespace, [None] where Python raises [IndexError]. *)
Definition first_word (s : string) : option string :=
  match token (lstrip s) with
  | EmptyString => None
  | w => Some w
  end.

Definition digit_value (c : ascii) : option Z :=
  let n := nat_of_ascii c in
  if ((48 <=? n) && (n <=? 57))%nat then Some (Z.of_nat n - 48) else None.

(** The digits of a decimal literal after its first digit: single
    underscores may separate digits. *)
Fixpoint digits_from (acc : Z) (s : string) : option Z :=
  match s with
  | EmptyString => Some acc
  | String c s' =>
      match digit_value c with
      | Some d => digits_from (10 * acc + d) s'
      | None =>
          if Ascii.eqb c "_" then
            match s' with
            | String c' s'' =>
                match digit_value c' with
                | Some d => digits_from (10 * acc + d) s''
                | None => None
                end
            | EmptyString => None
            end
          else None
      end
  end.

(** [sys.get_int_max_str_digits()]: the interpreter refuses to convert a
    text of more digits. *)
Definition int_max_str_digits : Z := 4300.

(** The digits of a text; a sign and underscores are not digits. *)
Fixpoint digit_count (s : string) : Z :=
  match s with
  | EmptyString => 0
  | String c s' =>
      (match digit_value c with Some _ => 1 | None => 0 end) + digit_count s'
  end.

Definition unsigned_literal (s : string) : option Z :=
  if int_max_str_digits <? digit_count s then None
  else
    match s with
    | String c s' =>
        match digit_value c with
        | Some d => digits_from d s'
        | None => None
        end
    | EmptyString => None
    end.

(** [int(w)] on a word without whitespace, [None] where Python raises
    [ValueError]: for a text that is no decimal literal, and for a literal
    of more than [int_max_str_digits] digits. *)
Definition int_of_word (w : string) : option Z :=
  match w with
  | String "+" s' => unsigned_literal s'
  | String "-" s' => Z.opp <$> unsigned_literal s'
  | _ => unsigned_literal w
  end.

End Text.

(** ** Exceptions and outcomes *)

Inductive PyExc : Type :=
| AttributeError
| KeyError
| TypeError
| IndexError
| ValueError
| ServiceError.

Inductive Outcome (A : Type) : Type :=
| Return (a : A)
| Raise (e : PyExc).

Arguments Return {A} a.
Arguments Raise {A} e.

(** ** Data model *)

(** [class Issue]. [mai_score] is [None] or a score total. *)
Record Issue : Type := {
  id : string;
  title : string;
  content : string;
  source : string;
  urgency : string;
  timestamp : Z;
  mai_score : option Z;
  status : string;
}.

(** A reference to an Issue object: its position in the store. *)
Definition IssueRef : Type := nat.

(** [class MAIScore] *)
Record MAIScore : Type := {
  mission_alignment : Z;
  impact_growth : Z;
  risk_evaluation : Z;
  total_score : Z;
}.

(** [MAIScore.__init__] *)
Definition MAIScore_init (mission impact risk : Z) : MAIScore :=
  {| mission_alignment := mission;
     impact_growth := impact;
     risk_evaluation := risk;
     total_score := mission + impact + risk |}.

(** [MAIScore.get_recommendation] *)
Definition get_recommendation (self : MAIScore) : string :=
  if total_score self >=? 30 then "TIER_2_HUMAN_REVIEW"
  else if total_score self >=? 15 then "ENHANCED_MONITORING"
  else "DOCUMENTATION_ONLY".

(** One entry of [MAIScoringAgent.decision_history]; [breakdown] is the
    nested dict of the three sub-scores. *)
Record Breakdown : Type := {
  mission : Z;
  impact : Z;
  risk : Z;
}.

Record HistoryEntry : Type := {
  h_issue_id : string;
  h_timestamp : Z;
  h_mai_score : Z;
  h_breakdown : Breakdown;
}.

(** The manifesto dict with its two keys. *)
Record Manifesto : Type := {
  core_principles : list string;
  strategic_priorities : list string;
}.

(** Values stored in the [scheduled_content] dict. *)
Inductive PyValue : Type :=
| VStr (s : string)
| VDatetime (t : Z).

#[global] Instance PyValue_eq_dec : EqDecision PyValue.
Proof. solve_decision. Defined.

(** The dict returned by [detect_channel_conflict]. *)
Record Conflict : Type := {
  conflict_id : string;
  new_issue : IssueRef;
  conflicting_content : gmap string PyValue;
  severity : string;
  detected_at : Z;
}.

Record Decision : Type := {
  action : string;
  rationale : string;
}.

(** The dict returned by [execute_lightning_protocol]. *)
Record Resolution : Type := {
  r_conflict_id : string;
  resolution_time : Z;
  decision : Decision;
}.

(** The dict returned by [route_issue]. *)
Record RoutingDecision : Type := {
  rd_issue_id : string;
  rd_mai_score : Z;
  routing : string;
  priority_level : string;
  estimated_response_time : string;
  decision_timestamp : Z;
}.

(** ** The world *)

Record World : Type := {
  (** the k-th observation of the wall clock, in microseconds *)
  wall_clock : nat -> Z;
  clock_reads : nat;
  (** the answer of the model to its n-th call, [None] when the call fails *)
  generate_content : nat -> string -> option string;
  model_calls : nat;
  (** the lines printed so far *)
  stdout : list string;
  (** the Issue objects created so far *)
  issues : list Issue;
  (** [decision_history] of the scoring agent *)
  decision_history : list HistoryEntry;
}.

Definition M (A : Type) : Type := World -> Outcome A * World.

Definition ret {A : Type} (a : A) : M A := fun w => (Return a, w).

Definition bind {A B : Type} (m : M A) (f : A -> M B) : M B := fun w =>
  match m w with
  | (Return a, w') => f a w'
  | (Raise e, w') => (Raise e, w')
  end.

Declare Scope py_scope.
Delimit Scope py_scope with py.
Bind Scope py_scope with M.

Notation "x <- m ;; k" := (bind m (fun x => k))
  (at level 100, m at next level, right associativity) : py_scope.
Notation "m ;; k" := (bind m (fun _ => k))
  (at level 100, right associativity) : py_scope.

Open Scope py_scope.

Definition raise {A : Type} (e : PyExc) : M A := fun w => (Raise e, w).

(** [try: body except: handler] *)
Definition try_except {A : Type} (body handler : M A) : M A := fun w =>
  match body w with
  | (Return a, w') => (Return a, w')
  | (Raise _, w') => handler w'
  end.

Definition tick_clock (w : World) : World :=
  {| wall_clock := wall_clock w; clock_reads := S (clock_reads w);
     generate_content := generate_content w; model_calls := model_calls w;
     stdout := stdout w; issues := issues w;
     decision_history := decision_history w |}.

Definition tick_model (w : World) : World :=
  {| wall_clock := wall_clock w; clock_reads := clock_reads w;
     generate_content := generate_content w; model_calls := S (model_calls w);
     stdout := stdout w; issues := issues w;
     decision_history := decision_history w |}.

Definition with_stdout (out : list string) (w : World) : World :=
  {| wall_clock := wall_clock w; clock_reads := clock_reads w;
     generate_content := generate_content w; model_calls := model_calls w;
     stdout := out; issues := issues w;
     decision_history := decision_history w |}.

Definition with_issues (l : list Issue) (w : World) : World :=
  {| wall_clock := wall_clock w; clock_reads := clock_reads w;
     generate_content := generate_content w; model_calls := model_calls w;
     stdout := stdout w; issues := l;
     decision_history := decision_history w |}.

Definition with_history (h : list HistoryEntry) (w : World) : World :=
  {| wall_clock := wall_clock w; clock_reads := clock_reads w;
     generate_content := generate_content w; model_calls := model_calls w;
     stdout := stdout w; issues := issues w;
     decision_history := h |}.

(** [datetime.now()] *)
Definition datetime_now : M Z := fun w =>
  (Return (wall_clock w (clock_reads w)), tick_clock w).

(** [int(time.time())]: the clock in whole seconds. *)
Definition int_time_time : M Z := fun w =>
  (Return (wall_clock w (clock_reads w) `quot` 1000000), tick_clock w).

(** [print(line)] *)
Definition print (line : string) : M unit := fun w =>
  (Return tt, with_stdout (stdout w ++ [line]) w).

(** [self.model.generate_content(prompt).text] *)
Definition model_generate_content (prompt : string) : M string := fun w =>
  match generate_content w (model_calls w) prompt with
  | Some text => (Return text, tick_model w)
  | None => (Raise ServiceError, tick_model w)
  end.

(** Reading the attributes of the object behind a reference. *)
Definition deref (r : IssueRef) : M Issue := fun w =>
  match issues w !! r with
  | Some i => (Return i, w)
  | None => (Raise AttributeError, w)
  end.

(** [self.decision_history.append(entry)] *)
Definition history_append (entry : HistoryEntry) : M unit := fun w =>
  (Return tt, with_history (decision_history w ++ [entry]) w).

(** [Issue.__init__]: the new object is stored and its reference returned. *)
Definition Issue_init (title content source urgency : string) : M IssueRef :=
  secs <- int_time_time;;
  now <- datetime_now;;
  fun w =>
    (Return (length (issues w)),
     with_issues
       (issues w ++ [ {| id := "issue_" +:+ pretty secs;
                         title := title;
                         content := content;
                         source := source;
                         urgency := urgency;
                         timestamp := now;
                         mai_score := None;
                         status := "detected" |} ]) w).

(** ** MAIScoringAgent *)

Record MAIScoringAgent : Type := {
  manifesto : Manifesto;
}.

(** A triple-quoted f-string of the methods below: a newline, the lines at
    the indentation of the method body, and the indentation of the closing
    quotes. *)
Definition prompt_block (lines : list string) : string :=
  Text.nl +:+
  String.concat "" (map (fun l => "        " +:+ l +:+ Text.nl) lines) +:+
  "        ".

Definition mission_prompt (self : MAIScoringAgent) (i : Issue) : string :=
  prompt_block
    [ "Analyze this issue for mission alignment:";
      "";
      "Issue: " +:+ title i;
      "Content: " +:+ content i;
      "";
      "Our Core Principles: " +:+ Text.join ", " (core_principles (manifesto self));
      "Strategic Priorities: " +:+ Text.join ", " (strategic_priorities (manifesto self));
      "";
      "Score 0-15 points for mission alignment where:";
      "- 0-5: Low alignment, tangentially related ";
      "- 6-10: Moderate alignment, clearly relevant";
      "- 11-15: High alignment, directly impacts core mission";
      "";
      "Respond with just the number (0-15)." ].

Definition impact_prompt (i : Issue) : string :=
  prompt_block
    [ "Score this issue 0-15 points for impact potential:";
      "";
      "Issue: " +:+ title i;
      "Content: " +:+ content i;
      "";
      "Consider community growth, reach, and engagement sustainability.";
      "Respond with just the number (0-15)." ].

Definition risk_prompt (i : Issue) : string :=
  prompt_block
    [ "Score this issue 0-15 points for risk (higher = lower risk):";
      "";
      "Issue: " +:+ title i;
      "Content: " +:+ content i;
      "";
      "Consider stakeholder perception and reputational risks.";
      "Respond with just the number (0-15)." ].

(** [int(response.text.strip().split()[0])] *)
Definition parse_score (text : string) : M Z :=
  match Text.first_word text with
  | None => raise IndexError
  | Some w =>
      match Text.int_of_word w with
      | None => raise ValueError
      | Some n => ret n
      end
  end.

(** [sum(1 for x in xs if p x)] *)
Definition count_matches {A : Type} (p : A -> bool) (xs : list A) : Z :=
  fold_right Z.add 0 (map (fun _ => 1) (List.filter p xs)).

Definition mission_keywords : list string :=
  ["privacy"; "security"; "rights"; "accessibility"; "ethics"].

Definition _fallback_mission_score (issue : IssueRef) : M Z :=
  i <- deref issue;;
  let keywords := mission_keywords in
  let content_lower := Text.lower (title i +:+ " " +:+ content i) in
  let matches := count_matches (fun keyword => Text.contains keyword content_lower) keywords in
  ret (Z.min (matches * 3) 15).

Definition urgency_scores : gmap string Z :=
  {[ "low" := 5; "medium" := 10; "high" := 15 ]}.

Definition _fallback_impact_score (issue : IssueRef) : M Z :=
  i <- deref issue;;
  ret (default 10 (urgency_scores !! urgency i)).

Definition _fallback_risk_score (issue : IssueRef) : M Z :=
  ret 8.

(** The [try] block shared by the three scoring methods. *)
Definition ask_model (prompt : string) : M Z :=
  text <- model_generate_content prompt;;
  score <- parse_score text;;
  ret (Z.min (Z.max score 0) 15).

Definition score_mission_alignment (self : MAIScoringAgent) (issue : IssueRef) : M Z :=
  i <- deref issue;;
  let prompt := mission_prompt self i in
  try_except (ask_model prompt) (_fallback_mission_score issue).

Definition score_impact_growth (self : MAIScoringAgent) (issue : IssueRef) : M Z :=
  i <- deref issue;;
  let prompt := impact_prompt i in
  try_except (ask_model prompt) (_fallback_impact_score issue).

Definition score_risk_evaluation (self : MAIScoringAgent) (issue : IssueRef) : M Z :=
  i <- deref issue;;
  let prompt := risk_prompt i in
  try_except (ask_model prompt) (_fallback_risk_score issue).

Definition calculate_full_mai_score (self : MAIScoringAgent) (issue : IssueRef)
  : M MAIScore :=
  i <- deref issue;;
  print ("🔍 Analyzing issue: " +:+ title i);;
  mission_score <- score_mission_alignment self issue;;
  impact_score <- score_impact_growth self issue;;
  risk_score <- score_risk_evaluation self issue;;
  let mai_score := MAIScore_init mission_score impact_score risk_score in
  i <- deref issue;;
  now <- datetime_now;;
  history_append
    {| h_issue_id := id i;
       h_timestamp := now;
       h_mai_score := total_score mai_score;
       h_breakdown := {| mission := mission_score;
                         impact := impact_score;
                         risk := risk_score |} |};;
  print ("📊 MAI Score: " +:+ pretty (total_score mai_score) +:+ "/45");;
  print ("   Mission: " +:+ pretty mission_score +:+ "/15, Impact: " +:+
         pretty impact_score +:+ "/15, Risk: " +:+ pretty risk_score +:+ "/15");;
  print ("   Recommendation: " +:+ get_recommendation mai_score);;
  ret mai_score.

(** ** MonitorAgent *)

Record IssueData : Type := {
  d_title : string;
  d_content : string;
  d_source : string;
  d_urgency : string;
}.

Definition monitor_keywords : list string :=
  [ "privacy breach"; "security vulnerability"; "data leak";
    "ai ethics"; "platform accountability"; "digital rights";
    "accessibility"; "open source"; "regulation" ].

Definition _is_relevant_issue (issue_data : IssueData) : bool :=
  let content := Text.lower (d_title issue_data +:+ " " +:+ d_content issue_data) in
  let keyword_matches :=
    count_matches (fun keyword => Text.contains keyword content) monitor_keywords in
  let is_urgent :=
    bool_decide (d_urgency issue_data ∈ ["medium"; "high"]) in
  (keyword_matches >? 0) || is_urgent.

Definition sample_issues : list IssueData :=
  [ {| d_title := "Major social media platform changes privacy policy without user notice";
       d_content := "Platform updated terms to allow broader data sharing with third parties, affecting 2 billion users globally.";
       d_source := "Privacy Watch Blog";
       d_urgency := "high" |};
    {| d_title := "New AI model shows concerning bias in hiring recommendations";
       d_content := "Research reveals AI hiring tool consistently recommends male candidates over equally qualified female candidates.";
       d_source := "AI Ethics Journal";
       d_urgency := "medium" |};
    {| d_title := "Government proposes new internet regulation framework";
       d_content := "Proposed legislation would require platforms to implement content filtering, raising free expression concerns.";
       d_source := "Tech Policy News";
       d_urgency := "medium" |} ].

(** The loop of [simulate_web_monitoring] over the remaining samples. *)
Fixpoint detect_all (samples : list IssueData) (detected_issues : list IssueRef)
  : M (list IssueRef) :=
  match samples with
  | [] => ret detected_issues
  | issue_data :: rest =>
      if _is_relevant_issue issue_data then
        issue <- Issue_init (d_title issue_data) (d_content issue_data)
                            (d_source issue_data) (d_urgency issue_data);;
        i <- deref issue;;
        print ("   📥 Detected: " +:+ Text.take 50 (title i) +:+ "...");;
        detect_all rest (detected_issues ++ [issue])
      else detect_all rest detected_issues
  end.

Definition simulate_web_monitoring : M (list IssueRef) :=
  print "🔍 Monitoring web sources for emerging issues...";;
  detect_all sample_issues [].

(** ** ConflictResolutionAgent *)

Definition hours (n : Z) : Z := n * 3600 * 1000000.

Definition resolution_timeout : Z := 900.

(** The [scheduled_content] dict literal of [detect_channel_conflict], built
    when the clock reads [now]. *)
Definition scheduled_content_at (now : Z) : gmap string PyValue :=
  {[ "type" := VStr "fundraising_email";
     "title" := VStr "Year-end Giving Campaign";
     "scheduled_time" := VDatetime (now + hours 2);
     "priority" := VStr "high" ]}.

Definition _assess_conflict_severity (issue : IssueRef) (content : gmap string PyValue)
  : M string :=
  i <- deref issue;;
  let severity_score := 0 in
  let severity_score :=
    if bool_decide (content !! "priority" = Some (VStr "high"))
    then severity_score + 2 else severity_score in
  let severity_score :=
    if bool_decide (urgency i = "high")
    then severity_score + 3 else severity_score in
  ret (if severity_score >=? 4 then "CRITICAL" else "MODERATE").

(** [content['scheduled_time']] as a datetime *)
Definition scheduled_time_of (content : gmap string PyValue) : M Z :=
  match content !! "scheduled_time" with
  | Some (VDatetime t) => ret t
  | Some (VStr _) => raise TypeError
  | None => raise KeyError
  end.

(** [abs(delta.total_seconds() / 3600)] as Python computes it, in binary64,
    for a [timedelta] of [diff] microseconds. *)
Definition float_of_Z (z : Z) : float :=
  if z <? 0 then PrimFloat.opp (PrimFloat.of_uint63 (Uint63.of_Z (- z)))
  else PrimFloat.of_uint63 (Uint63.of_Z z).

Definition time_diff_float (diff : Z) : float :=
  PrimFloat.abs
    (PrimFloat.div (PrimFloat.div (float_of_Z diff) 1000000%float) 3600%float).

(** [time_diff < 6] for the time difference [diff] in microseconds.  The two
    divisions are monotonic and 21600 and 6 are floats, so a difference of
    six hours or more gives a float of at least 6; a difference of at most
    six hours less a microsecond gives at most 21599.999999 s, which the
    divisions round to less than 6 (see [float_test_at_the_threshold]).  The
    test is therefore the comparison of the microseconds with six hours. *)
Definition within_six_hours (diff : Z) : bool :=
  Z.abs diff <? hours 6.

Definition detect_channel_conflict (new_issue : IssueRef) : M (option Conflict) :=
  t0 <- datetime_now;;
  let scheduled_content := scheduled_content_at t0 in
  scheduled_time <- scheduled_time_of scheduled_content;;
  now <- datetime_now;;
  if within_six_hours (scheduled_time - now) then
    secs <- int_time_time;;
    severity <- _assess_conflict_severity new_issue scheduled_content;;
    detected <- datetime_now;;
    let conflict :=
      {| conflict_id := "conflict_" +:+ pretty secs;
         new_issue := new_issue;
         conflicting_content := scheduled_content;
         severity := severity;
         detected_at := detected |} in
    print "⚠️  Channel conflict detected";;
    ret (Some conflict)
  else ret None.

Definition execute_lightning_protocol (conflict : Conflict) : M Resolution :=
  print (Text.nl +:+ "🚨 LIGHTNING PROTOCOL ACTIVATED");;
  print ("   Conflict ID: " +:+ conflict_id conflict);;
  print ("   Severity: " +:+ severity conflict);;
  let decision :=
    if bool_decide (severity conflict = "CRITICAL") then
      {| action := "SEGMENT_AND_STAGGER";
         rationale := "High-priority issue requires immediate response with audience segmentation." |}
    else
      {| action := "DELAY_SECONDARY";
         rationale := "Delay scheduled content to avoid message collision." |} in
  print ("✅ Conflict resolved! Decision: " +:+ action decision);;
  now <- datetime_now;;
  ret {| r_conflict_id := conflict_id conflict;
         resolution_time := now;
         decision := decision |}.

(** ** DecisionSupportAgent *)

Definition _determine_priority (mai_score : MAIScore) (issue : IssueRef) : M string :=
  i <- deref issue;;
  ret (if (total_score mai_score >=? 35) && bool_decide (urgency i = "high")
       then "P0 - CRITICAL"
       else if (total_score mai_score >=? 25) || bool_decide (urgency i = "high")
       then "P1 - HIGH"
       else if total_score mai_score >=? 15
       then "P2 - MEDIUM"
       else "P3 - LOW").

Definition _estimate_response_time (routing urgency : string) : string :=
  if bool_decide (routing = "TIER_2_HUMAN_REVIEW") then
    if bool_decide (urgency = "high") then "2-4 hours" else "4-8 hours"
  else if bool_decide (routing = "ENHANCED_MONITORING") then "8-24 hours"
  else "24-48 hours".

Definition route_issue (issue : IssueRef) (mai_score : MAIScore) : M RoutingDecision :=
  i <- deref issue;;
  print ("🎯 Routing decision for: " +:+ Text.take 50 (title i) +:+ "...");;
  let recommendation := get_recommendation mai_score in
  priority <- _determine_priority mai_score issue;;
  now <- datetime_now;;
  let routing_decision :=
    {| rd_issue_id := id i;
       rd_mai_score := total_score mai_score;
       routing := recommendation;
       priority_level := priority;
       estimated_response_time := _estimate_response_time recommendation (urgency i);
       decision_timestamp := now |} in
  print ("   📊 MAI Score: " +:+ pretty (total_score mai_score) +:+ "/45");;
  print ("   🎯 Routing: " +:+ recommendation);;
  print ("   ⏰ Est. response time: " +:+ estimated_response_time routing_decision);;
  ret routing_decision.

(** ** RapidResponseSystem *)

(** [s * n] *)
Fixpoint string_times (s : string) (n : nat) : string :=
  match n with
  | O => ""
  | S n' => s +:+ string_times s n'
  end.

(** [delta.total_seconds()] for a [timedelta] of [diff] microseconds, in
    binary64 (exact integers up to 2^53 microseconds). *)
Definition total_seconds (diff : Z) : float :=
  PrimFloat.div (float_of_Z diff) 1000000%float.

(** [f"{x:.1f}"]: the float [x] rounded to one decimal, to the even digit
    when [x] lies half way. *)
Definition format_1f (x : float) : string :=
  match Prim2SF x with
  | S754_zero s => (if s then "-" else "") +:+ "0.0"
  | S754_finite s m e =>
      let num := Z.pos m * 10 in
      let tenths :=
        if 0 <=? e then num * 2 ^ e
        else
          let den := 2 ^ (- e) in
          let q := num / den in
          let r := num mod den in
          if (den <? 2 * r) || ((den =? 2 * r) && Z.odd q) then q + 1 else q in
      (if s then "-" else "") +:+
      pretty (tenths / 10) +:+ "." +:+ pretty (tenths mod 10)
  | S754_infinity s => if s then "-inf" else "inf"
  | S754_nan => "nan"
  end.







(** ** Definitions used to state the properties *)

(** The order of the three recommendation tiers. *)
Definition tier_rank (tier : string) : Z :=
  if bool_decide (tier = "TIER_2_HUMAN_REVIEW") then 2
  else if bool_decide (tier = "ENHANCED_MONITORING") then 1
  else 0.

(** The integer the model gives for a prompt at its [n]-th call: [None] when
    the call fails or its text does not start with an integer. *)
Definition model_score (w : World) (n : nat) (prompt : string) : option Z :=
  match generate_content w n prompt with
  | Some text =>
      match Text.first_word text with
      | Some word => Text.int_of_word word
      | None => None
      end
  | None => None
  end.

(** A sub-score: the clamped answer of the model, or the fallback value. *)
Definition sub_score (w : World) (n : nat) (prompt : string) (fallback : Z) : Z :=
  match model_score w n prompt with
  | Some score => Z.min (Z.max score 0) 15
  | None => fallback
  end.

(** The mission keywords that occur, in any case, in the title and content of
    an issue, and their number. *)
Definition matched_keywords (i : Issue) : list string :=
  List.filter
    (fun keyword => Text.contains keyword (Text.lower (title i +:+ " " +:+ content i)))
    mission_keywords.

Definition keyword_hits (i : Issue) : Z :=
  Z.of_nat (length (matched_keywords i)).

(** The model fails at every call. *)
Definition model_down (w : World) : Prop :=
  forall n prompt, generate_content w n prompt = None.

(** The worlds that differ from [w] in the console only. *)
Definition same_but_stdout (w w' : World) : Prop :=
  wall_clock w' = wall_clock w /\ clock_reads w' = clock_reads w /\
  generate_content w' = generate_content w /\ model_calls w' = model_calls w /\
  issues w' = issues w /\ decision_history w' = decision_history w.

(** A world whose clock shows [readings] (then the last of them for ever),
    whose model is down, and in which nothing has happened yet. *)
Definition quiet_world (readings : list Z) : World :=
  {| wall_clock := fun k => List.nth k readings (List.last readings 0);
     clock_reads := 0;
     generate_content := fun _ _ => None;
     model_calls := 0;
     stdout := [];
     issues := [];
     decision_history := [] |}.

(** An issue object as [Issue.__init__] leaves it. *)
Definition fresh_issue (ident title content source urgency : string) (now : Z) : Issue :=
  {| id := ident; title := title; content := content; source := source;
     urgency := urgency; timestamp := now; mai_score := None;
     status := "detected" |}.

(** The manifesto of the example at the end of the source file. *)
Definition SAMPLE_MANIFESTO : Manifesto :=
  {| core_principles :=
       [ "Digital privacy and security";
         "Open and accessible technology";
         "User empowerment and education";
         "Inclusive digital rights" ];
     strategic_priorities :=
       [ "Privacy protection";
         "Platform accountability";
         "Digital literacy";
         "Ethical AI development" ] |}.

Definition sample_scorer : MAIScoringAgent :=
  {| manifesto := SAMPLE_MANIFESTO |}.

(** An issue of high urgency whose text has the keywords privacy and
    security, in a world where the model is down. *)
Definition privacy_issue : Issue :=
  fresh_issue "issue_1700000000" "Privacy policy changed without notice"
              "The change weakens account SECURITY for every user."
              "Privacy Watch Blog" "high" 1700000000000001.

Definition outage_world : World :=
  with_issues [privacy_issue] (quiet_world [1700000000000002]).

Definition minutes (n : Z) : Z := n * 60 * 1000000.

(** A routing decision with another timestamp. *)
Definition with_decision_timestamp (t : Z) (d : RoutingDecision) : RoutingDecision :=
  {| rd_issue_id := rd_issue_id d;
     rd_mai_score := rd_mai_score d;
     routing := routing d;
     priority_level := priority_level d;
     estimated_response_time := estimated_response_time d;
     decision_timestamp := t |}.

(** The world of [privacy_issue] with a clock that shows [readings]. *)
Definition world_at (readings : list Z) : World :=
  with_issues [privacy_issue] (quiet_world readings).

(** A clock that advances by a tenth of a second between two observations,
    starting a tenth of a second into second 1700000000. *)
Definition tenths_clock : list Z :=
  map (fun k => 1700000000000000 + 100000 * k) [1; 2; 3; 4; 5; 6; 7; 8].

(** An entry of the decision history that adds up: its total is the sum of
    its three sub-scores, each of them in [0,15]. *)
Definition entry_adds_up (e : HistoryEntry) : Prop :=
  h_mai_score e =
    mission (h_breakdown e) + impact (h_breakdown e) + risk (h_breakdown e) /\
  0 <= mission (h_breakdown e) <= 15 /\
  0 <= impact (h_breakdown e) <= 15 /\
  0 <= risk (h_breakdown e) <= 15.

(** The keyword [k] occurs in the text [s], in any case: the lower-cased
    text is some text, the keyword, and some text. *)
Definition occurs (k s : string) : Prop :=
  exists pre post, Text.lower s = pre +:+ k +:+ post.

(** The character [c] occurs in [s]. *)
Fixpoint has_char (c : ascii) (s : string) : bool :=
  match s with
  | EmptyString => false
  | String a s' => Ascii.eqb a c || has_char c s'
  end.

(** The issue object [i] is the one [Issue.__init__] makes from the sample
    [d]. *)
Definition made_from (d : IssueData) (i : Issue) : Prop :=
  title i = d_title d /\ content i = d_content d /\
  source i = d_source d /\ urgency i = d_urgency d /\
  mai_score i = None /\ status i = "detected".

(** A text of whitespace only. *)
Fixpoint is_blank (s : string) : bool :=
  match s with
  | EmptyString => true
  | String c s' => Text.is_whitespace c && is_blank s'
  end.

(** A text without whitespace. *)
Fixpoint no_whitespace (s : string) : bool :=
  match s with
  | EmptyString => true
  | String c s' => negb (Text.is_whitespace c) && no_whitespace s'
  end.

(** A text that ends the word before it: nothing, or whitespace first. *)
Definition ends_word (s : string) : bool :=
  match s with
  | EmptyString => true
  | String c _ => Text.is_whitespace c
  end.




(** ** Running computations *)

Section Running.

Context {A B : Type}.

Lemma bind_return (m : M A) (f : A -> M B) w a w' :
  m w = (Return a, w') -> bind m f w = f a w'.
Proof. intros H. unfold bind. now rewrite H. Qed.

Lemma bind_raise (m : M A) (f : A -> M B) w e w' :
  m w = (Raise e, w') -> bind m f w = (Raise e, w').
Proof. intros H. unfold bind. now rewrite H. Qed.

Lemma try_except_return (body handler : M A) w a w' :
  body w = (Return a, w') -> try_except body handler w = (Return a, w').
Proof. intros H. unfold try_except. now rewrite H. Qed.

Lemma try_except_raise (body handler : M A) w e w' :
  body w = (Raise e, w') -> try_except body handler w = handler w'.
Proof. intros H. unfold try_except. now rewrite H. Qed.

End Running.

Lemma deref_valid r w i :
  issues w !! r = Some i -> deref r w = (Return i, w).
Proof. intros H. unfold deref. now rewrite H. Qed.

Lemma print_run line w :
  print line w = (Return tt, with_stdout (stdout w ++ [line]) w).
Proof. reflexivity. Qed.

Lemma datetime_now_run w :
  datetime_now w = (Return (wall_clock w (clock_reads w)), tick_clock w).
Proof. reflexivity. Qed.

Lemma int_time_time_run w :
  int_time_time w =
  (Return (wall_clock w (clock_reads w) `quot` 1000000), tick_clock w).
Proof. reflexivity. Qed.

Lemma history_append_run entry w :
  history_append entry w =
  (Return tt, with_history (decision_history w ++ [entry]) w).
Proof. reflexivity. Qed.

(** Run the next step of a computation by the equation [E] of that step. *)
Ltac step E := rewrite (bind_return _ _ _ _ _ E).

(** ** The text functions *)

Lemma starts_with_prefix p s :
  Text.starts_with p s = true <-> exists post, s = p +:+ post.
Proof.
  revert s. induction p as [|a p IH]; intros s; simpl.
  - split; [intros _; now exists s | reflexivity].
  - destruct s as [|b s].
    + split; [discriminate | intros [post H]; discriminate].
    + destruct (Ascii.eqb_spec a b) as [->|Hne].
      * rewrite IH. split; intros [post H]; exists post.
        -- now rewrite H.
        -- now injection H.
      * split; [discriminate | intros [post H]; injection H; congruence].
Qed.

(** [Text.contains] is the substring test. *)
Lemma contains_substring sub s :
  Text.contains sub s = true <-> exists pre post, s = pre +:+ sub +:+ post.
Proof.
  induction s as [|c s IH].
  - simpl. rewrite orb_false_r, starts_with_prefix. split.
    + intros [post H]. now exists "", post.
    + intros [pre [post H]]. destruct pre; [now exists post | discriminate].
  - cbn [Text.contains]. rewrite orb_true_iff, starts_with_prefix, IH. split.
    + intros [[post H] | [pre [post H]]].
      * now exists "", post.
      * exists (String c pre), post. simpl. now rewrite H.
    + intros [pre [post H]]. destruct pre as [|c' pre].
      * left. now exists post.
      * right. injection H as _ H. now exists pre, post.
Qed.

Lemma lower_char_idempotent c :
  Text.lower_char (Text.lower_char c) = Text.lower_char c.
Proof.
  destruct c as [[] [] [] [] [] [] [] []]; reflexivity.
Qed.

(** Lower-casing is idempotent: matching is insensitive to case. *)
Lemma lower_idempotent s : Text.lower (Text.lower s) = Text.lower s.
Proof.
  induction s as [|c s IH]; simpl; [reflexivity|].
  now rewrite lower_char_idempotent, IH.
Qed.

Lemma lower_app s1 s2 :
  Text.lower (s1 +:+ s2) = Text.lower s1 +:+ Text.lower s2.
Proof.
  induction s1 as [|c s1 IH]; simpl; [reflexivity|]. now rewrite IH.
Qed.

(** ** The scoring agent, step by step *)

(** Issues whose titles and contents agree up to case match the same
    keywords. *)
Lemma matched_keywords_case_insensitive i j :
  Text.lower (title j) = Text.lower (title i) ->
  Text.lower (content j) = Text.lower (content i) ->
  matched_keywords j = matched_keywords i.
Proof.
  intros Ht Hc. unfold matched_keywords.
  now rewrite !lower_app, Ht, Hc.
Qed.

Lemma ask_model_scored prompt w n :
  model_score w (model_calls w) prompt = Some n ->
  ask_model prompt w = (Return (Z.min (Z.max n 0) 15), tick_model w).
Proof.
  unfold model_score, ask_model, bind, model_generate_content, parse_score.
  destruct (generate_content w (model_calls w) prompt) as [text|]; [|discriminate].
  destruct (Text.first_word text) as [word|]; [|discriminate].
  intros ->. reflexivity.
Qed.

Lemma ask_model_failed prompt w :
  model_score w (model_calls w) prompt = None ->
  exists e, ask_model prompt w = (Raise e, tick_model w).
Proof.
  unfold model_score, ask_model, bind, model_generate_content, parse_score.
  destruct (generate_content w (model_calls w) prompt) as [text|];
    [|intros _; now exists ServiceError].
  destruct (Text.first_word text) as [word|]; [|intros _; now exists IndexError].
  intros ->. now exists ValueError.
Qed.

Lemma count_matches_length {A : Type} (p : A -> bool) (xs : list A) :
  count_matches p xs = Z.of_nat (length (List.filter p xs)).
Proof.
  unfold count_matches.
  induction (List.filter p xs) as [|x l IH]; [reflexivity|].
  cbn [map fold_right length]. rewrite IH. lia.
Qed.

Lemma keyword_hits_range i : 0 <= keyword_hits i <= 5.
Proof.
  unfold keyword_hits, matched_keywords. split; [lia|].
  pose proof (List.filter_length_le
    (fun keyword => Text.contains keyword (Text.lower (title i +:+ " " +:+ content i)))
    mission_keywords) as H.
  change (length mission_keywords) with 5%nat in H. lia.
Qed.

Lemma fallback_mission_run r w i :
  issues w !! r = Some i ->
  _fallback_mission_score r w = (Return (Z.min (3 * keyword_hits i) 15), w).
Proof.
  intros Hr. unfold _fallback_mission_score.
  rewrite (bind_return _ _ _ _ _ (deref_valid _ _ _ Hr)).
  rewrite count_matches_length. unfold ret, keyword_hits, matched_keywords.
  do 2 f_equal. lia.
Qed.

Lemma fallback_impact_run r w i :
  issues w !! r = Some i ->
  _fallback_impact_score r w = (Return (default 10 (urgency_scores !! urgency i)), w).
Proof.
  intros Hr. unfold _fallback_impact_score.
  now rewrite (bind_return _ _ _ _ _ (deref_valid _ _ _ Hr)).
Qed.

(** A scoring method: ask the model, fall back when that raises. *)
Lemma try_model_run prompt (handler : M Z) fallback w :
  (forall w', handler w' = (Return fallback, w')) ->
  try_except (ask_model prompt) handler w =
  (Return (sub_score w (model_calls w) prompt fallback), tick_model w).
Proof.
  intros Hh. unfold sub_score.
  destruct (model_score w (model_calls w) prompt) as [n|] eqn:E.
  - now rewrite (try_except_return _ _ _ _ _ (ask_model_scored _ _ _ E)).
  - destruct (ask_model_failed _ _ E) as [e He].
    now rewrite (try_except_raise _ _ _ _ _ He), Hh.
Qed.

Lemma score_mission_alignment_run self r w i :
  issues w !! r = Some i ->
  score_mission_alignment self r w =
  (Return (sub_score w (model_calls w) (mission_prompt self i)
                     (Z.min (3 * keyword_hits i) 15)),
   tick_model w).
Proof.
  intros Hr. unfold score_mission_alignment.
  rewrite (bind_return _ _ _ _ _ (deref_valid _ _ _ Hr)).
  unfold try_except, sub_score.
  destruct (model_score w (model_calls w) (mission_prompt self i)) as [n|] eqn:E.
  - now rewrite (ask_model_scored _ _ _ E).
  - destruct (ask_model_failed _ _ E) as [e ->].
    now apply fallback_mission_run.
Qed.

Lemma score_impact_growth_run self r w i :
  issues w !! r = Some i ->
  score_impact_growth self r w =
  (Return (sub_score w (model_calls w) (impact_prompt i)
                     (default 10 (urgency_scores !! urgency i))),
   tick_model w).
Proof.
  intros Hr. unfold score_impact_growth.
  rewrite (bind_return _ _ _ _ _ (deref_valid _ _ _ Hr)).
  unfold try_except, sub_score.
  destruct (model_score w (model_calls w) (impact_prompt i)) as [n|] eqn:E.
  - now rewrite (ask_model_scored _ _ _ E).
  - destruct (ask_model_failed _ _ E) as [e ->].
    now apply fallback_impact_run.
Qed.

Lemma score_risk_evaluation_run self r w i :
  issues w !! r = Some i ->
  score_risk_evaluation self r w =
  (Return (sub_score w (model_calls w) (risk_prompt i) 8), tick_model w).
Proof.
  intros Hr. unfold score_risk_evaluation.
  rewrite (bind_return _ _ _ _ _ (deref_valid _ _ _ Hr)).
  now apply try_model_run.
Qed.

Lemma sub_score_range w n prompt fallback :
  0 <= fallback <= 15 -> 0 <= sub_score w n prompt fallback <= 15.
Proof.
  intros H. unfold sub_score. destruct (model_score w n prompt); lia.
Qed.

Lemma sub_score_model_down w n prompt fallback :
  model_down w -> sub_score w n prompt fallback = fallback.
Proof.
  intros H. unfold sub_score, model_score. now rewrite H.
Qed.

Lemma fallback_impact_range u : 0 <= default 10 (urgency_scores !! u) <= 15.
Proof.
  destruct (decide (u = "low")) as [->|]; [vm_compute; split; discriminate|].
  destruct (decide (u = "medium")) as [->|]; [vm_compute; split; discriminate|].
  destruct (decide (u = "high")) as [->|]; [vm_compute; split; discriminate|].
  unfold urgency_scores.
  rewrite !lookup_insert_ne, lookup_singleton_ne by congruence. simpl. lia.
Qed.

(** What [calculate_full_mai_score] returns and does to the world. *)
Lemma calculate_full_mai_score_run self r w i :
  issues w !! r = Some i ->
  let n := model_calls w in
  let m := sub_score w n (mission_prompt self i) (Z.min (3 * keyword_hits i) 15) in
  let im := sub_score w (S n) (impact_prompt i)
                      (default 10 (urgency_scores !! urgency i)) in
  let rk := sub_score w (S (S n)) (risk_prompt i) 8 in
  exists w',
    calculate_full_mai_score self r w = (Return (MAIScore_init m im rk), w') /\
    issues w' = issues w /\
    decision_history w' =
      (decision_history w ++
       [ {| h_issue_id := id i;
            h_timestamp := wall_clock w (clock_reads w);
            h_mai_score := m + im + rk;
            h_breakdown := {| mission := m; impact := im; risk := rk |} |} ])%list /\
    wall_clock w' = wall_clock w /\
    clock_reads w' = S (clock_reads w) /\
    generate_content w' = generate_content w /\
    model_calls w' = S (S (S n)) /\
    stdout w' =
      (stdout w ++
      [ "🔍 Analyzing issue: " +:+ title i;
        "📊 MAI Score: " +:+ pretty (m + im + rk) +:+ "/45";
        "   Mission: " +:+ pretty m +:+ "/15, Impact: " +:+
          pretty im +:+ "/15, Risk: " +:+ pretty rk +:+ "/15";
        "   Recommendation: " +:+ get_recommendation (MAIScore_init m im rk) ])%list.
Proof.
  intros Hr n m im rk. unfold calculate_full_mai_score.
  step (deref_valid _ _ _ Hr).
  step (print_run ("🔍 Analyzing issue: " +:+ title i) w).
  set (w1 := with_stdout _ w).
  assert (H1 : issues w1 !! r = Some i) by exact Hr.
  step (score_mission_alignment_run self _ _ _ H1).
  assert (H2 : issues (tick_model w1) !! r = Some i) by exact Hr.
  step (score_impact_growth_run self _ _ _ H2).
  assert (H3 : issues (tick_model (tick_model w1)) !! r = Some i) by exact Hr.
  step (score_risk_evaluation_run self _ _ _ H3).
  assert (H4 : issues (tick_model (tick_model (tick_model w1))) !! r = Some i)
    by exact Hr.
  step (deref_valid _ _ _ H4).
  eexists. split; [reflexivity|].
  cbn. rewrite <- !app_assoc. repeat split; reflexivity.
Qed.

Lemma Issue_init_run title content source urgency w :
  let secs := wall_clock w (clock_reads w) `quot` 1000000 in
  let now := wall_clock w (S (clock_reads w)) in
  let created :=
    fresh_issue ("issue_" +:+ pretty secs) title content source urgency now in
  Issue_init title content source urgency w =
  (Return (length (issues w)),
   with_issues (issues w ++ [created]) (tick_clock (tick_clock w))).
Proof. reflexivity. Qed.

Lemma lookup_created (l : list Issue) (i : Issue) :
  (l ++ [i]) !! length l = Some i.
Proof.
  rewrite lookup_app_r by lia. now rewrite Nat.sub_diag.
Qed.

(** ** Recommendation tiers *)

Module Recommendation.

(** C1. [get_recommendation] is a step function of [total_score] alone:
    tier-2 human review exactly from 30 up, enhanced monitoring exactly
    from 15 to 29, documentation only exactly below 15; it depends on
    nothing but the total, it is monotonic in the total, and the totals
    0, 14, 15, 29, 30 and 45 give documentation only, documentation only,
    enhanced monitoring, enhanced monitoring, tier-2 human review and
    tier-2 human review. *)
Theorem get_recommendation_step_function :
  (forall s, get_recommendation s = "TIER_2_HUMAN_REVIEW" <-> 30 <= total_score s) /\
  (forall s, get_recommendation s = "ENHANCED_MONITORING" <-> 15 <= total_score s < 30) /\
  (forall s, get_recommendation s = "DOCUMENTATION_ONLY" <-> total_score s < 15) /\
  (forall s1 s2, total_score s1 = total_score s2 ->
                 get_recommendation s1 = get_recommendation s2) /\
  (forall s1 s2, total_score s1 <= total_score s2 ->
                 tier_rank (get_recommendation s1) <= tier_rank (get_recommendation s2)) /\
  (forall s,
      (total_score s = 0 -> get_recommendation s = "DOCUMENTATION_ONLY") /\
      (total_score s = 14 -> get_recommendation s = "DOCUMENTATION_ONLY") /\
      (total_score s = 15 -> get_recommendation s = "ENHANCED_MONITORING") /\
      (total_score s = 29 -> get_recommendation s = "ENHANCED_MONITORING") /\
      (total_score s = 30 -> get_recommendation s = "TIER_2_HUMAN_REVIEW") /\
      (total_score s = 45 -> get_recommendation s = "TIER_2_HUMAN_REVIEW")).
Proof.
  assert (tier : forall s,
    (30 <= total_score s /\ get_recommendation s = "TIER_2_HUMAN_REVIEW") \/
    (15 <= total_score s < 30 /\ get_recommendation s = "ENHANCED_MONITORING") \/
    (total_score s < 15 /\ get_recommendation s = "DOCUMENTATION_ONLY")).
  { intros s. unfold get_recommendation.
    destruct (Z.geb_spec (total_score s) 30); [left; split; [lia | reflexivity]|].
    destruct (Z.geb_spec (total_score s) 15); right;
      [left | right]; (split; [lia | reflexivity]). }
  assert (pure : forall s1 s2, total_score s1 = total_score s2 ->
                   get_recommendation s1 = get_recommendation s2).
  { intros s1 s2 E. unfold get_recommendation. now rewrite E. }
  split; [|split; [|split; [|split; [exact pure|split]]]].
  - intros s. destruct (tier s) as [[? E] | [[? E] | [? E]]]; rewrite E;
      split; intros; (reflexivity || lia || discriminate).
  - intros s. destruct (tier s) as [[? E] | [[? E] | [? E]]]; rewrite E;
      split; intros; (reflexivity || lia || discriminate).
  - intros s. destruct (tier s) as [[? E] | [[? E] | [? E]]]; rewrite E;
      split; intros; (reflexivity || lia || discriminate).
  - intros s1 s2 Hle.
    destruct (tier s1) as [[? ->] | [[? ->] | [? ->]]],
             (tier s2) as [[? ->] | [[? ->] | [? ->]]];
      vm_compute; (discriminate || lia).
  - intros s. repeat split; intros E;
      destruct (tier s) as [[? ->] | [[? ->] | [? ->]]]; (reflexivity || lia).
Qed.

End Recommendation.

(** ** The scoring agent *)

Module Scoring.

(** C3. Every score the scoring agent produces for an issue, whether
    the model answered or the fallback was used, has its three sub-scores
    in [0,15], its total equal to their sum, and its total in [0,45];
    and the agent does produce a score. *)
Theorem score_within_bounds self r w i :
  issues w !! r = Some i ->
  exists s w',
    calculate_full_mai_score self r w = (Return s, w') /\
    0 <= mission_alignment s <= 15 /\
    0 <= impact_growth s <= 15 /\
    0 <= risk_evaluation s <= 15 /\
    total_score s = mission_alignment s + impact_growth s + risk_evaluation s /\
    0 <= total_score s <= 45.
Proof.
  intros Hr.
  destruct (calculate_full_mai_score_run self r w i Hr) as [w' [E _]].
  eexists _, w'. split; [exact E|]. cbn.
  pose proof (keyword_hits_range i).
  pose proof (sub_score_range w (model_calls w) (mission_prompt self i)
                (Z.min (3 * keyword_hits i) 15) ltac:(lia)).
  pose proof (sub_score_range w (S (model_calls w)) (impact_prompt i) _
                (fallback_impact_range (urgency i))).
  pose proof (sub_score_range w (S (S (model_calls w))) (risk_prompt i) 8
                ltac:(lia)).
  lia.
Qed.

(** The bounds hold for an issue scored by a model that answers 99, -4 and
    nothing. *)
Lemma score_within_bounds_witness :
  exists s w',
    calculate_full_mai_score
      {| manifesto := {| core_principles := ["Digital privacy"];
                         strategic_priorities := ["Privacy protection"] |} |}
      0%nat
      {| wall_clock := fun k => Z.of_nat k; clock_reads := 0;
         generate_content := fun n _ =>
           match n with
           | O => Some " 99 points"
           | S O => Some "-4"
           | _ => None
           end;
         model_calls := 0; stdout := [];
         issues := [fresh_issue "issue_0" "Data leak" "A privacy breach" "blog" "low" 0];
         decision_history := [] |} = (Return s, w') /\
    0 <= mission_alignment s <= 15 /\
    0 <= impact_growth s <= 15 /\
    0 <= risk_evaluation s <= 15 /\
    total_score s = mission_alignment s + impact_growth s + risk_evaluation s /\
    0 <= total_score s <= 45.
Proof.
  eapply score_within_bounds. reflexivity.
Defined.

(** C4. When the model fails for a sub-score, that sub-score is the
    fallback: mission alignment is min(3 * keyword hits, 15), impact is 5,
    10 or 15 for urgency low, medium or high, risk is 8.  With the model
    down altogether, an issue that matches exactly privacy and security and
    has urgency high is scored 6, 15 and 8, in total 29, and recommended
    for enhanced monitoring. *)
Theorem fallback_scores self r w i :
  issues w !! r = Some i ->
  (forall j, Text.lower (title j) = Text.lower (title i) ->
             Text.lower (content j) = Text.lower (content i) ->
             keyword_hits j = keyword_hits i) /\
  (model_score w (model_calls w) (mission_prompt self i) = None ->
   score_mission_alignment self r w =
   (Return (Z.min (3 * keyword_hits i) 15), tick_model w)) /\
  (model_score w (model_calls w) (impact_prompt i) = None ->
   exists v,
     score_impact_growth self r w = (Return v, tick_model w) /\
     (urgency i = "low" -> v = 5) /\
     (urgency i = "medium" -> v = 10) /\
     (urgency i = "high" -> v = 15)) /\
  (model_score w (model_calls w) (risk_prompt i) = None ->
   score_risk_evaluation self r w = (Return 8, tick_model w)) /\
  (model_down w ->
   exists s w',
     calculate_full_mai_score self r w = (Return s, w') /\
     mission_alignment s = Z.min (3 * keyword_hits i) 15 /\
     (urgency i = "low" -> impact_growth s = 5) /\
     (urgency i = "medium" -> impact_growth s = 10) /\
     (urgency i = "high" -> impact_growth s = 15) /\
     risk_evaluation s = 8 /\
     (matched_keywords i = ["privacy"; "security"] -> urgency i = "high" ->
      s = {| mission_alignment := 6; impact_growth := 15;
             risk_evaluation := 8; total_score := 29 |} /\
      get_recommendation s = "ENHANCED_MONITORING")).
Proof.
  intros Hr. repeat apply conj.
  - intros j Ht Hc. unfold keyword_hits.
    now rewrite (matched_keywords_case_insensitive i j Ht Hc).
  - intros E. rewrite (score_mission_alignment_run self r w i Hr).
    unfold sub_score. now rewrite E.
  - intros E. eexists. rewrite (score_impact_growth_run self r w i Hr).
    unfold sub_score. rewrite E. split; [reflexivity|].
    repeat split; intros ->; reflexivity.
  - intros E. rewrite (score_risk_evaluation_run self r w i Hr).
    unfold sub_score. now rewrite E.
  - intros Hdown.
    destruct (calculate_full_mai_score_run self r w i Hr) as [w' [E _]].
    rewrite !sub_score_model_down in E by exact Hdown.
    eexists _, w'. split; [exact E|].
    unfold MAIScore_init.
    cbn [mission_alignment impact_growth risk_evaluation total_score].
    split; [reflexivity|].
    do 3 (split; [intros ->; reflexivity|]).
    split; [reflexivity|].
    intros Hk Hu. unfold keyword_hits. rewrite Hk, Hu. split; reflexivity.
Qed.

(** The outage scenario at [privacy_issue]. *)
Lemma fallback_scores_witness :
  exists s w',
    calculate_full_mai_score sample_scorer 0%nat outage_world = (Return s, w') /\
    s = {| mission_alignment := 6; impact_growth := 15;
           risk_evaluation := 8; total_score := 29 |} /\
    get_recommendation s = "ENHANCED_MONITORING".
Proof.
  destruct (fallback_scores sample_scorer 0%nat outage_world privacy_issue eq_refl)
    as (_ & _ & _ & _ & H).
  destruct (H (fun _ _ => eq_refl)) as (s & w' & E & _ & _ & _ & _ & _ & Hex).
  exists s, w'. split; [exact E|]. apply Hex; reflexivity.
Defined.

(** C10. Scoring leaves the issue objects as they are: the store after
    [calculate_full_mai_score] is the store before it, so an issue just
    created still has no [mai_score] and the status detected, and every
    other field as [Issue.__init__] set it; the score is returned, and one
    entry with its total and sub-scores is appended to the decision
    history. *)
Theorem scoring_leaves_issue_unchanged self title content source urgency w0 :
  exists r w1 created s w2,
    Issue_init title content source urgency w0 = (Return r, w1) /\
    issues w1 !! r = Some created /\
    created =
      fresh_issue ("issue_" +:+ pretty (wall_clock w0 (clock_reads w0) `quot` 1000000))
                  title content source urgency
                  (wall_clock w0 (S (clock_reads w0))) /\
    calculate_full_mai_score self r w1 = (Return s, w2) /\
    issues w2 = issues w1 /\
    issues w2 !! r = Some created /\
    mai_score created = None /\
    status created = "detected" /\
    decision_history w2 =
      decision_history w1 ++
      [ {| h_issue_id := id created;
           h_timestamp := wall_clock w1 (clock_reads w1);
           h_mai_score := total_score s;
           h_breakdown := {| mission := mission_alignment s;
                             impact := impact_growth s;
                             risk := risk_evaluation s |} |} ].
Proof.
  pose proof (Issue_init_run title content source urgency w0) as Hinit.
  cbv zeta in Hinit.
  set (created := fresh_issue _ title content source urgency _) in Hinit.
  set (w1 := with_issues _ _) in Hinit.
  assert (Hr : issues w1 !! length (issues w0) = Some created)
    by apply lookup_created.
  destruct (calculate_full_mai_score_run self _ w1 created Hr)
    as (w2 & E & Hissues & Hhist & _).
  exists (length (issues w0)), w1, created. eexists _, w2.
  split; [exact Hinit|]. split; [exact Hr|]. split; [reflexivity|].
  split; [exact E|]. split; [exact Hissues|].
  split; [now rewrite Hissues|].
  split; [reflexivity|]. split; [reflexivity|]. exact Hhist.
Qed.

End Scoring.

(** ** The routing agent, step by step *)

Lemma determine_priority_run score r w i :
  issues w !! r = Some i ->
  _determine_priority score r w =
  (Return (if (total_score score >=? 35) && bool_decide (urgency i = "high")
           then "P0 - CRITICAL"
           else if (total_score score >=? 25) || bool_decide (urgency i = "high")
           then "P1 - HIGH"
           else if total_score score >=? 15 then "P2 - MEDIUM"
           else "P3 - LOW"), w).
Proof.
  intros Hr. unfold _determine_priority. now step (deref_valid _ _ _ Hr).
Qed.

(** What [route_issue] returns and does to the world. *)
Lemma route_issue_run r score w i :
  issues w !! r = Some i ->
  exists priority w',
    _determine_priority score r w = (Return priority, w) /\
    route_issue r score w =
    (Return {| rd_issue_id := id i;
               rd_mai_score := total_score score;
               routing := get_recommendation score;
               priority_level := priority;
               estimated_response_time :=
                 _estimate_response_time (get_recommendation score) (urgency i);
               decision_timestamp := wall_clock w (clock_reads w) |}, w') /\
    same_but_stdout (tick_clock w) w' /\
    stdout w' =
      stdout w ++
      [ "🎯 Routing decision for: " +:+ Text.take 50 (title i) +:+ "...";
        "   📊 MAI Score: " +:+ pretty (total_score score) +:+ "/45";
        "   🎯 Routing: " +:+ get_recommendation score;
        "   ⏰ Est. response time: " +:+
          _estimate_response_time (get_recommendation score) (urgency i) ].
Proof.
  intros Hr. eexists _, _.
  split; [exact (determine_priority_run score r w i Hr)|].
  unfold route_issue.
  step (deref_valid _ _ _ Hr).
  step (print_run ("🎯 Routing decision for: " +:+ Text.take 50 (title i) +:+ "...") w).
  set (w1 := with_stdout _ w).
  assert (H1 : issues w1 !! r = Some i) by exact Hr.
  step (determine_priority_run score r w1 i H1).
  step (datetime_now_run w1).
  split; [reflexivity|].
  split; [repeat split|].
  cbn. now rewrite <- !app_assoc.
Qed.

(** ** The routing agent *)

Module Routing.

(** C2. The priority level of the decision [route_issue] returns follows
    the first rule that matches, in this order: total at least 35 and
    urgency high give P0 - CRITICAL; else total at least 25 or urgency high
    give P1 - HIGH; else total at least 15 gives P2 - MEDIUM; else
    P3 - LOW.  So 36 with high gives P0, 26 with low gives P1, 20 with low
    gives P2 and 5 with low gives P3. *)
Theorem route_priority_first_match r score w i :
  issues w !! r = Some i ->
  exists d w',
    route_issue r score w = (Return d, w') /\
    let total := total_score score in
    let high := urgency i = "high" in
    (35 <= total /\ high -> priority_level d = "P0 - CRITICAL") /\
    (~ (35 <= total /\ high) -> 25 <= total \/ high ->
     priority_level d = "P1 - HIGH") /\
    (~ (35 <= total /\ high) -> ~ (25 <= total \/ high) -> 15 <= total ->
     priority_level d = "P2 - MEDIUM") /\
    (~ (35 <= total /\ high) -> ~ (25 <= total \/ high) -> ~ 15 <= total ->
     priority_level d = "P3 - LOW") /\
    (total = 36 -> urgency i = "high" -> priority_level d = "P0 - CRITICAL") /\
    (total = 26 -> urgency i = "low" -> priority_level d = "P1 - HIGH") /\
    (total = 20 -> urgency i = "low" -> priority_level d = "P2 - MEDIUM") /\
    (total = 5 -> urgency i = "low" -> priority_level d = "P3 - LOW").
Proof.
  intros Hr.
  destruct (route_issue_run r score w i Hr) as (p & w' & Hp & E & _).
  rewrite (determine_priority_run score r w i Hr) in Hp.
  injection Hp as <-.
  eexists _, w'. split; [exact E|].
  cbn [priority_level].
  destruct (Z.geb_spec (total_score score) 35),
           (Z.geb_spec (total_score score) 25),
           (Z.geb_spec (total_score score) 15);
    try lia; case_bool_decide as Hu; cbn [andb orb];
    repeat split; intros; try reflexivity;
    try (exfalso; intuition (lia || congruence)).
Qed.

(** A score of 36 for [privacy_issue], which is urgent, is routed P0. *)
Lemma route_priority_first_match_witness :
  exists d w',
    route_issue 0%nat (MAIScore_init 15 15 6) outage_world = (Return d, w') /\
    priority_level d = "P0 - CRITICAL".
Proof.
  destruct (route_priority_first_match 0%nat (MAIScore_init 15 15 6)
              outage_world privacy_issue eq_refl)
    as (d & w' & E & _ & _ & _ & _ & H & _).
  exists d, w'. split; [exact E|]. apply H; reflexivity.
Defined.

(** C7, as stated, fails: two calls of [route_issue] on the same issue and
    score, one after the other, return decisions that differ (in their
    timestamps) when the clock has moved in between. *)
Lemma route_issue_twice_differs :
  fst (route_issue 0%nat (MAIScore_init 6 15 8) (world_at tenths_clock)) <>
  fst (route_issue 0%nat (MAIScore_init 6 15 8)
         (snd (route_issue 0%nat (MAIScore_init 6 15 8) (world_at tenths_clock)))).
Proof.
  vm_compute. intros H. discriminate H.
Qed.

(** C7, amended. [route_issue] is a function of the issue, the score and
    the clock: two calls with the same issue and score return decisions
    equal in every field but [decision_timestamp], which is the time each
    call reads from the clock, so equal decisions when the clock shows the
    same time; a call reads no other state, and changes nothing but the
    console, on which it prints, and the clock, which it reads once. *)
Theorem route_issue_depends_on_clock_only r score w1 w2 i :
  issues w1 !! r = Some i ->
  issues w2 !! r = Some i ->
  exists d1 w1' d2 w2',
    route_issue r score w1 = (Return d1, w1') /\
    route_issue r score w2 = (Return d2, w2') /\
    decision_timestamp d1 = wall_clock w1 (clock_reads w1) /\
    decision_timestamp d2 = wall_clock w2 (clock_reads w2) /\
    d2 = with_decision_timestamp (decision_timestamp d2) d1 /\
    (decision_timestamp d1 = decision_timestamp d2 -> d1 = d2) /\
    same_but_stdout (tick_clock w1) w1' /\
    same_but_stdout (tick_clock w2) w2'.
Proof.
  intros H1 H2.
  destruct (route_issue_run r score w1 i H1) as (p1 & w1' & Hp1 & E1 & F1 & _).
  destruct (route_issue_run r score w2 i H2) as (p2 & w2' & Hp2 & E2 & F2 & _).
  rewrite (determine_priority_run score r w1 i H1) in Hp1.
  rewrite (determine_priority_run score r w2 i H2) in Hp2.
  injection Hp1 as <-. injection Hp2 as <-.
  eexists _, w1', _, w2'.
  split; [exact E1|]. split; [exact E2|].
  split; [reflexivity|]. split; [reflexivity|]. split; [reflexivity|].
  split; [|split; assumption].
  cbn [decision_timestamp]. now intros ->.
Qed.

(** Two calls for [privacy_issue] under different clocks. *)
Lemma route_issue_depends_on_clock_only_witness :
  exists d1 w1' d2 w2',
    route_issue 0%nat (MAIScore_init 6 15 8) (world_at [5]) = (Return d1, w1') /\
    route_issue 0%nat (MAIScore_init 6 15 8) (world_at [7]) = (Return d2, w2') /\
    decision_timestamp d1 = 5 /\
    decision_timestamp d2 = 7 /\
    d2 = with_decision_timestamp 7 d1.
Proof.
  destruct (route_issue_depends_on_clock_only 0%nat (MAIScore_init 6 15 8)
              (world_at [5]) (world_at [7]) privacy_issue eq_refl eq_refl)
    as (d1 & w1' & d2 & w2' & E1 & E2 & T1 & T2 & D & _).
  exists d1, w1', d2, w2'.
  split; [exact E1|]. split; [exact E2|].
  split; [exact T1|]. split; [exact T2|].
  rewrite T2 in D. exact D.
Defined.

End Routing.

(** ** The conflict agent, step by step *)

Lemma scheduled_time_of_run t0 w :
  scheduled_time_of (scheduled_content_at t0) w = (Return (t0 + hours 2), w).
Proof. reflexivity. Qed.

Lemma scheduled_priority t0 :
  scheduled_content_at t0 !! "priority" = Some (VStr "high").
Proof. reflexivity. Qed.

Lemma scheduled_time t0 :
  scheduled_content_at t0 !! "scheduled_time" = Some (VDatetime (t0 + hours 2)).
Proof. reflexivity. Qed.

Lemma assess_conflict_severity_run r content w i :
  issues w !! r = Some i ->
  _assess_conflict_severity r content w =
  (Return
     (if (if bool_decide (content !! "priority" = Some (VStr "high")) then 2 else 0) +
         (if bool_decide (urgency i = "high") then 3 else 0) >=? 4
      then "CRITICAL" else "MODERATE"), w).
Proof.
  intros Hr. unfold _assess_conflict_severity.
  step (deref_valid _ _ _ Hr).
  repeat case_bool_decide; reflexivity.
Qed.

(** The severity of a conflict with the simulated schedule. *)
Lemma severity_against_schedule r t0 w i :
  issues w !! r = Some i ->
  _assess_conflict_severity r (scheduled_content_at t0) w =
  (Return (if bool_decide (urgency i = "high") then "CRITICAL" else "MODERATE"), w).
Proof.
  intros Hr. rewrite (assess_conflict_severity_run r _ w i Hr).
  rewrite scheduled_priority.
  rewrite bool_decide_eq_true_2 by reflexivity.
  case_bool_decide; reflexivity.
Qed.

(** No conflict: [detect_channel_conflict] returns [None] after two looks at
    the clock. *)
Lemma detect_none r w :
  within_six_hours
    (wall_clock w (clock_reads w) + hours 2 - wall_clock w (S (clock_reads w))) = false ->
  detect_channel_conflict r w = (Return None, tick_clock (tick_clock w)).
Proof.
  intros Hfar. unfold detect_channel_conflict.
  step (datetime_now_run w).
  step (scheduled_time_of_run (wall_clock w (clock_reads w)) (tick_clock w)).
  step (datetime_now_run (tick_clock w)).
  cbn [tick_clock wall_clock clock_reads]. now rewrite Hfar.
Qed.

(** A conflict: [detect_channel_conflict] returns it after four looks at the
    clock and one line on the console. *)
Lemma detect_some r w i :
  issues w !! r = Some i ->
  within_six_hours
    (wall_clock w (clock_reads w) + hours 2 - wall_clock w (S (clock_reads w))) = true ->
  exists w',
    detect_channel_conflict r w =
    (Return
       (Some
          {| conflict_id :=
               "conflict_" +:+
               pretty (wall_clock w (S (S (clock_reads w))) `quot` 1000000);
             new_issue := r;
             conflicting_content := scheduled_content_at (wall_clock w (clock_reads w));
             severity :=
               if bool_decide (urgency i = "high") then "CRITICAL" else "MODERATE";
             detected_at := wall_clock w (S (S (S (clock_reads w)))) |}), w') /\
    same_but_stdout (tick_clock (tick_clock (tick_clock (tick_clock w)))) w' /\
    stdout w' = stdout w ++ ["⚠️  Channel conflict detected"].
Proof.
  intros Hr Hnear. unfold detect_channel_conflict.
  step (datetime_now_run w).
  step (scheduled_time_of_run (wall_clock w (clock_reads w)) (tick_clock w)).
  step (datetime_now_run (tick_clock w)).
  cbn [tick_clock wall_clock clock_reads]. rewrite Hnear.
  set (w2 := tick_clock (tick_clock w)).
  step (int_time_time_run w2).
  assert (H3 : issues (tick_clock w2) !! r = Some i) by exact Hr.
  step (severity_against_schedule r (wall_clock w (clock_reads w)) _ i H3).
  step (datetime_now_run (tick_clock w2)).
  eexists. split; [reflexivity|]. split; [repeat split | reflexivity].
Qed.

(** The float test and the test on microseconds agree around the threshold
    and at the difference the simulated schedule gives. *)
Lemma float_test_at_the_threshold :
  Forall (fun diff =>
            PrimFloat.ltb (time_diff_float diff) 6%float = within_six_hours diff)
         [ hours 6 - 1; hours 6; hours 6 + 1; - (hours 6 - 1); - hours 6;
           minutes 359; - minutes 359; hours 2; hours 2 - 1; 0 ].
Proof.
  repeat constructor.
Qed.

Lemma within_six_hours_spec diff :
  within_six_hours diff = true <-> Z.abs diff < hours 6.
Proof. unfold within_six_hours. apply Z.ltb_lt. Qed.

Lemma not_within_six_hours_spec diff :
  within_six_hours diff = false <-> hours 6 <= Z.abs diff.
Proof. unfold within_six_hours. apply Z.ltb_ge. Qed.

(** What [execute_lightning_protocol] returns: the decision and the time
    read after four lines on the console. *)
Lemma execute_lightning_protocol_run conflict w :
  exists w',
    execute_lightning_protocol conflict w =
    (Return
       {| r_conflict_id := conflict_id conflict;
          resolution_time := wall_clock w (clock_reads w);
          decision :=
            if bool_decide (severity conflict = "CRITICAL") then
              {| action := "SEGMENT_AND_STAGGER";
                 rationale := "High-priority issue requires immediate response with audience segmentation." |}
            else
              {| action := "DELAY_SECONDARY";
                 rationale := "Delay scheduled content to avoid message collision." |} |},
     w') /\
    same_but_stdout (tick_clock w) w'.
Proof.
  unfold execute_lightning_protocol.
  step (print_run (Text.nl +:+ "🚨 LIGHTNING PROTOCOL ACTIVATED") w).
  set (w1 := with_stdout _ w).
  step (print_run ("   Conflict ID: " +:+ conflict_id conflict) w1).
  set (w2 := with_stdout _ w1).
  step (print_run ("   Severity: " +:+ severity conflict) w2).
  set (w3 := with_stdout _ w2).
  cbv zeta.
  match goal with
  | |- context [print ?line] => step (print_run line w3)
  end.
  set (w4 := with_stdout _ w3).
  step (datetime_now_run w4).
  eexists. split; [reflexivity|]. repeat split.
Qed.

(** ** The conflict agent *)

Module Conflicts.

(** C5. [detect_channel_conflict] returns a conflict exactly when the
    scheduled time and the time it then reads from the clock are less than
    six hours apart, in either direction: 5h59m before or after is a
    conflict, six hours sharp is not; without a conflict it returns [None],
    and it raises nothing. *)
Theorem conflict_iff_within_six_hours r w i :
  issues w !! r = Some i ->
  let scheduled := wall_clock w (clock_reads w) + hours 2 in
  let now := wall_clock w (S (clock_reads w)) in
  (exists o w',
      detect_channel_conflict r w = (Return o, w') /\
      (is_Some o <-> Z.abs (scheduled - now) < hours 6) /\
      (o = None <-> hours 6 <= Z.abs (scheduled - now)) /\
      (forall c, o = Some c ->
                 conflicting_content c !! "scheduled_time" = Some (VDatetime scheduled))) /\
  (scheduled - now = minutes 359 ->
   exists c w', detect_channel_conflict r w = (Return (Some c), w')) /\
  (scheduled - now = - minutes 359 ->
   exists c w', detect_channel_conflict r w = (Return (Some c), w')) /\
  (scheduled - now = hours 6 ->
   exists w', detect_channel_conflict r w = (Return None, w')) /\
  (scheduled - now = - hours 6 ->
   exists w', detect_channel_conflict r w = (Return None, w')).
Proof.
  intros Hr scheduled now.
  assert (near : Z.abs (scheduled - now) < hours 6 ->
                 exists c w', detect_channel_conflict r w = (Return (Some c), w') /\
                   conflicting_content c !! "scheduled_time" = Some (VDatetime scheduled)).
  { intros H. apply within_six_hours_spec in H.
    destruct (detect_some r w i Hr H) as (w' & E & _).
    eexists _, w'. split; [exact E|]. apply scheduled_time. }
  assert (far : hours 6 <= Z.abs (scheduled - now) ->
                detect_channel_conflict r w = (Return None, tick_clock (tick_clock w))).
  { intros H. apply not_within_six_hours_spec in H. now apply detect_none. }
  split; [|split; [|split; [|split]]].
  - destruct (Z.lt_ge_cases (Z.abs (scheduled - now)) (hours 6)) as [H | H].
    + destruct (near H) as (c & w' & E & Hc).
      exists (Some c), w'. split; [exact E|].
      split; [split; [intros _; exact H | intros _; now exists c]|].
      split; [split; [discriminate | lia]|].
      intros c' Hc'. injection Hc' as <-. exact Hc.
    + exists None, (tick_clock (tick_clock w)). split; [exact (far H)|].
      split; [split; [intros [c Hc]; discriminate | lia]|].
      split; [split; [intros _; exact H | reflexivity]|].
      intros c Hc. discriminate.
  - intros H. destruct near as (c & w' & E & _);
      [rewrite H; vm_compute; reflexivity | now exists c, w'].
  - intros H. destruct near as (c & w' & E & _);
      [rewrite H; vm_compute; reflexivity | now exists c, w'].
  - intros H. eexists. apply far. rewrite H. vm_compute. discriminate.
  - intros H. eexists. apply far. rewrite H. vm_compute. discriminate.
Qed.

(** A schedule 5h59m ahead of the clock is a conflict for [privacy_issue]. *)
Lemma conflict_iff_within_six_hours_witness :
  exists c w',
    detect_channel_conflict 0%nat (world_at [0; - minutes 239; 0; 0]) =
    (Return (Some c), w').
Proof.
  destruct (conflict_iff_within_six_hours 0%nat
              (world_at [0; - minutes 239; 0; 0]) privacy_issue eq_refl)
    as (_ & H & _).
  apply H. reflexivity.
Defined.

(** C6. The severity of a conflict is CRITICAL exactly when its score is
    at least 4, MODERATE otherwise, where the score is 2 for a scheduled
    item of priority high plus 3 for an issue of urgency high; the
    resolution of a conflict is SEGMENT_AND_STAGGER exactly when its
    severity is CRITICAL and DELAY_SECONDARY otherwise, each with its own
    rationale. *)
Theorem severity_and_resolution :
  (forall r content w i,
      issues w !! r = Some i ->
      let score :=
        (if decide (content !! "priority" = Some (VStr "high")) then 2 else 0) +
        (if decide (urgency i = "high") then 3 else 0) in
      exists label,
        _assess_conflict_severity r content w = (Return label, w) /\
        (label = "CRITICAL" <-> 4 <= score) /\
        (label = "MODERATE" <-> score < 4)) /\
  (forall conflict w,
      exists resolution w',
        execute_lightning_protocol conflict w = (Return resolution, w') /\
        r_conflict_id resolution = conflict_id conflict /\
        (severity conflict = "CRITICAL" ->
         decision resolution =
         {| action := "SEGMENT_AND_STAGGER";
            rationale := "High-priority issue requires immediate response with audience segmentation." |}) /\
        (severity conflict <> "CRITICAL" ->
         decision resolution =
         {| action := "DELAY_SECONDARY";
            rationale := "Delay scheduled content to avoid message collision." |}) /\
        (action (decision resolution) = "SEGMENT_AND_STAGGER" <->
         severity conflict = "CRITICAL")).
Proof.
  split.
  - intros r content w i Hr score. subst score.
    rewrite (assess_conflict_severity_run r content w i Hr).
    eexists. split; [reflexivity|].
    repeat case_bool_decide; repeat case_decide; try contradiction;
      cbn; split; split; intros; try reflexivity; try discriminate; lia.
  - intros conflict w.
    destruct (execute_lightning_protocol_run conflict w) as (w' & E & _).
    eexists _, w'. split; [exact E|].
    cbn [r_conflict_id decision]. split; [reflexivity|].
    case_bool_decide as Hs.
    + split; [reflexivity|]. split; [contradiction|]. now split.
    + split; [contradiction|]. split; [reflexivity|].
      split; [discriminate | contradiction].
Qed.

(** C9, as stated, fails: under a clock that shows nine hours more at its
    second reading than at its first, [detect_channel_conflict] returns no
    conflict for [privacy_issue], the schedule being seven hours behind the
    clock by then. *)
Lemma detect_without_conflict :
  fst (detect_channel_conflict 0%nat (world_at [0; hours 9])) = Return None.
Proof. vm_compute. reflexivity. Qed.

(** C9, amended. [detect_channel_conflict] compares the clock with one item
    only, scheduled two hours after the time it first reads and of priority
    high; so, provided the clock does not jump eight hours or more ahead, or
    four hours or more back, between its first two readings, it returns a
    conflict for every issue, and the severity of that conflict is CRITICAL
    exactly when the urgency of the issue is high, MODERATE otherwise. *)
Theorem detect_always_conflicts r w i :
  issues w !! r = Some i ->
  - hours 4 < wall_clock w (S (clock_reads w)) - wall_clock w (clock_reads w) < hours 8 ->
  exists c w',
    detect_channel_conflict r w = (Return (Some c), w') /\
    new_issue c = r /\
    conflicting_content c !! "priority" = Some (VStr "high") /\
    conflicting_content c !! "scheduled_time" =
      Some (VDatetime (wall_clock w (clock_reads w) + hours 2)) /\
    (severity c = "CRITICAL" <-> urgency i = "high") /\
    (severity c = "MODERATE" <-> urgency i <> "high").
Proof.
  intros Hr Hclock.
  assert (Hnear : within_six_hours
            (wall_clock w (clock_reads w) + hours 2 -
             wall_clock w (S (clock_reads w))) = true).
  { apply within_six_hours_spec. unfold hours in *. lia. }
  destruct (detect_some r w i Hr Hnear) as (w' & E & _).
  eexists _, w'. split; [exact E|].
  cbn [new_issue conflicting_content severity].
  split; [reflexivity|]. split; [apply scheduled_priority|].
  split; [apply scheduled_time|].
  case_bool_decide as Hu; split; split; intros; try reflexivity;
    try discriminate; try contradiction; try assumption.
Qed.

(** [privacy_issue], which is urgent, conflicts critically under a clock
    that advances by a tenth of a second. *)
Lemma detect_always_conflicts_witness :
  exists c w',
    detect_channel_conflict 0%nat (world_at tenths_clock) = (Return (Some c), w') /\
    severity c = "CRITICAL".
Proof.
  destruct (detect_always_conflicts 0%nat (world_at tenths_clock) privacy_issue)
    as (c & w' & E & _ & _ & _ & H & _).
  - reflexivity.
  - vm_compute. split; reflexivity.
  - exists c, w'. split; [exact E|]. apply H. reflexivity.
Defined.

End Conflicts.

(** ** Issue identifiers *)

Module Identity.

(** Two issues created one after the other within one second of the clock
    are two objects with one identifier. *)
Lemma same_second_same_id title1 content1 source1 urgency1
      title2 content2 source2 urgency2 w :
  wall_clock w (clock_reads w) `quot` 1000000 =
  wall_clock w (S (S (clock_reads w))) `quot` 1000000 ->
  exists r1 w1 r2 w2 i1 i2,
    Issue_init title1 content1 source1 urgency1 w = (Return r1, w1) /\
    Issue_init title2 content2 source2 urgency2 w1 = (Return r2, w2) /\
    r1 <> r2 /\
    issues w2 !! r1 = Some i1 /\
    issues w2 !! r2 = Some i2 /\
    id i1 = id i2.
Proof.
  intros Hsec.
  pose proof (Issue_init_run title1 content1 source1 urgency1 w) as E1.
  cbv zeta in E1.
  set (i1 := fresh_issue _ title1 content1 source1 urgency1 _) in E1.
  set (w1 := with_issues _ _) in E1.
  pose proof (Issue_init_run title2 content2 source2 urgency2 w1) as E2.
  cbv zeta in E2.
  set (i2 := fresh_issue _ title2 content2 source2 urgency2 _) in E2.
  set (w2 := with_issues _ _) in E2.
  exists (length (issues w)), w1, (length (issues w1)), w2, i1, i2.
  split; [exact E1|]. split; [exact E2|].
  assert (Hlen : length (issues w1) = S (length (issues w))).
  { subst w1. cbn. rewrite length_app. cbn. lia. }
  split; [lia|]. split; [|split].
  - subst w2. cbn [issues with_issues].
    rewrite lookup_app_l by lia. apply lookup_created.
  - apply lookup_created.
  - subst i1 i2 w1. cbn. now rewrite Hsec.
Qed.

(** C8 fails on the issues the monitor itself detects: under a clock that
    advances by a tenth of a second, [simulate_web_monitoring] creates
    three issue objects, and all three have the identifier
    issue_1700000000. *)
Theorem monitor_issues_share_an_id :
  exists w' i1 i2 i3,
    simulate_web_monitoring (quiet_world tenths_clock) =
      (Return [0; 1; 2]%nat, w') /\
    issues w' = [i1; i2; i3] /\
    title i1 <> title i2 /\ title i2 <> title i3 /\ title i1 <> title i3 /\
    id i1 = "issue_1700000000" /\
    id i2 = "issue_1700000000" /\
    id i3 = "issue_1700000000".
Proof.
  eexists (snd (simulate_web_monitoring (quiet_world tenths_clock))), _, _, _.
  split; [vm_compute; reflexivity|].
  split; [vm_compute; reflexivity|].
  cbn [title id fresh_issue].
  repeat split; discriminate.
Qed.

End Identity.

(** ** Response times and priorities of a routing decision *)

Lemma estimate_by_total score u :
  _estimate_response_time (get_recommendation score) u =
  if total_score score >=? 30
  then (if bool_decide (u = "high") then "2-4 hours" else "4-8 hours")
  else if total_score score >=? 15 then "8-24 hours" else "24-48 hours".
Proof.
  unfold _estimate_response_time, get_recommendation.
  destruct (total_score score >=? 30); [reflexivity|].
  destruct (total_score score >=? 15); reflexivity.
Qed.

Module ResponseTimes.

(** X1. The response time [route_issue] estimates is read from the total
    and the urgency: 2-4 hours from 30 up when the urgency is high, 4-8
    hours from 30 up otherwise, 8-24 hours from 15 to 29, 24-48 hours
    below 15; and the routing of the decision is the recommendation of the
    score. *)
Theorem response_time_by_total_and_urgency r score w i :
  issues w !! r = Some i ->
  exists d w',
    route_issue r score w = (Return d, w') /\
    routing d = get_recommendation score /\
    (30 <= total_score score -> urgency i = "high" ->
     estimated_response_time d = "2-4 hours") /\
    (30 <= total_score score -> urgency i <> "high" ->
     estimated_response_time d = "4-8 hours") /\
    (15 <= total_score score < 30 -> estimated_response_time d = "8-24 hours") /\
    (total_score score < 15 -> estimated_response_time d = "24-48 hours").
Proof.
  intros Hr.
  destruct (route_issue_run r score w i Hr) as (p & w' & _ & E & _).
  eexists _, w'. split; [exact E|].
  cbn [routing estimated_response_time]. split; [reflexivity|].
  rewrite estimate_by_total.
  destruct (Z.geb_spec (total_score score) 30), (Z.geb_spec (total_score score) 15);
    try case_bool_decide; repeat split; intros; try reflexivity;
    try contradiction; try congruence; lia.
Qed.

(** A total of 31 for [privacy_issue], which is urgent: 2-4 hours. *)
Lemma response_time_by_total_and_urgency_witness :
  exists d w',
    route_issue 0%nat (MAIScore_init 15 8 8) outage_world = (Return d, w') /\
    estimated_response_time d = "2-4 hours".
Proof.
  destruct (response_time_by_total_and_urgency 0%nat (MAIScore_init 15 8 8)
              outage_world privacy_issue eq_refl)
    as (d & w' & E & _ & H & _).
  exists d, w'. split; [exact E|]. apply H; [vm_compute; discriminate | reflexivity].
Defined.

(** X2. The fields of one routing decision agree with each other: P0 comes
    with tier-2 review in 2-4 hours; P2 with enhanced monitoring in 8-24
    hours; P3 with documentation only in 24-48 hours; tier-2 review is P0 or
    P1.  An urgent issue with a total below 15 is P1 and yet documentation
    only, in 24-48 hours. *)
Theorem priority_agrees_with_routing r score w i :
  issues w !! r = Some i ->
  exists d w',
    route_issue r score w = (Return d, w') /\
    (priority_level d = "P0 - CRITICAL" ->
     routing d = "TIER_2_HUMAN_REVIEW" /\ estimated_response_time d = "2-4 hours") /\
    (priority_level d = "P2 - MEDIUM" ->
     routing d = "ENHANCED_MONITORING" /\ estimated_response_time d = "8-24 hours") /\
    (priority_level d = "P3 - LOW" ->
     routing d = "DOCUMENTATION_ONLY" /\ estimated_response_time d = "24-48 hours") /\
    (routing d = "TIER_2_HUMAN_REVIEW" ->
     priority_level d = "P0 - CRITICAL" \/ priority_level d = "P1 - HIGH") /\
    (urgency i = "high" -> total_score score < 15 ->
     priority_level d = "P1 - HIGH" /\ routing d = "DOCUMENTATION_ONLY" /\
     estimated_response_time d = "24-48 hours").
Proof.
  intros Hr.
  destruct (route_issue_run r score w i Hr) as (p & w' & Hp & E & _).
  rewrite (determine_priority_run score r w i Hr) in Hp. injection Hp as <-.
  eexists _, w'. split; [exact E|].
  cbn [routing estimated_response_time priority_level].
  rewrite estimate_by_total. unfold get_recommendation.
  destruct (Z.geb_spec (total_score score) 35),
           (Z.geb_spec (total_score score) 30),
           (Z.geb_spec (total_score score) 25),
           (Z.geb_spec (total_score score) 15); try lia;
    try case_bool_decide; try case_bool_decide; cbn [andb orb];
    repeat split; intros; try reflexivity; try discriminate;
    try contradiction; try lia; auto.
Qed.

(** [privacy_issue] is urgent: with a total of 9 it is P1 and documentation
    only. *)
Lemma priority_agrees_with_routing_witness :
  exists d w',
    route_issue 0%nat (MAIScore_init 3 3 3) outage_world = (Return d, w') /\
    priority_level d = "P1 - HIGH" /\ routing d = "DOCUMENTATION_ONLY" /\
    estimated_response_time d = "24-48 hours".
Proof.
  destruct (priority_agrees_with_routing 0%nat (MAIScore_init 3 3 3)
              outage_world privacy_issue eq_refl)
    as (d & w' & E & _ & _ & _ & _ & H).
  exists d, w'. split; [exact E|]. apply H; [reflexivity | vm_compute; reflexivity].
Defined.

End ResponseTimes.

(** ** Detection and resolution together *)

Module Protocol.

(** X3. A conflict is critical exactly when the scheduled item has priority
    high and the issue has urgency high; a scheduled item without a priority
    gives a moderate conflict whatever the urgency. *)
Theorem critical_needs_both r (content : gmap string PyValue) w i :
  issues w !! r = Some i ->
  exists label,
    _assess_conflict_severity r content w = (Return label, w) /\
    (label = "CRITICAL" <->
     content !! "priority" = Some (VStr "high") /\ urgency i = "high") /\
    (label <> "CRITICAL" -> label = "MODERATE") /\
    (content !! "priority" = None -> label = "MODERATE").
Proof.
  intros Hr. rewrite (assess_conflict_severity_run r content w i Hr).
  eexists. split; [reflexivity|].
  repeat case_bool_decide; cbn; (split; [split|split]); intros;
    try reflexivity; try discriminate; try tauto; try congruence.
Qed.

(** An urgent issue against a schedule without a priority: moderate. *)
Lemma critical_needs_both_witness :
  _assess_conflict_severity 0%nat {[ "type" := VStr "newsletter" ]} outage_world =
  (Return "MODERATE", outage_world).
Proof.
  destruct (critical_needs_both 0%nat {[ "type" := VStr "newsletter" ]}
              outage_world privacy_issue eq_refl) as (label & E & _ & _ & H).
  rewrite E. now rewrite (H eq_refl).
Defined.

(** X4. Detection followed by resolution, under a clock that does not jump:
    the resolution carries the identifier of the conflict, its action is
    SEGMENT_AND_STAGGER for an issue of urgency high and DELAY_SECONDARY for
    any other; the two steps read the clock five times and leave the issues,
    the decision history and the model as they were. *)
Theorem resolution_by_urgency r w i :
  issues w !! r = Some i ->
  - hours 4 < wall_clock w (S (clock_reads w)) - wall_clock w (clock_reads w) < hours 8 ->
  exists c w1 res w2,
    detect_channel_conflict r w = (Return (Some c), w1) /\
    execute_lightning_protocol c w1 = (Return res, w2) /\
    r_conflict_id res = conflict_id c /\
    (urgency i = "high" -> action (decision res) = "SEGMENT_AND_STAGGER") /\
    (urgency i <> "high" -> action (decision res) = "DELAY_SECONDARY") /\
    detected_at c = wall_clock w (3 + clock_reads w)%nat /\
    resolution_time res = wall_clock w (4 + clock_reads w)%nat /\
    clock_reads w2 = (5 + clock_reads w)%nat /\
    issues w2 = issues w /\
    decision_history w2 = decision_history w /\
    model_calls w2 = model_calls w.
Proof.
  intros Hr Hclock.
  assert (Hnear : within_six_hours
            (wall_clock w (clock_reads w) + hours 2 -
             wall_clock w (S (clock_reads w))) = true).
  { apply within_six_hours_spec. unfold hours in *. lia. }
  destruct (detect_some r w i Hr Hnear) as (w1 & E1 & F1 & _).
  destruct (execute_lightning_protocol_run
              {| conflict_id :=
                   "conflict_" +:+
                   pretty (wall_clock w (S (S (clock_reads w))) `quot` 1000000);
                 new_issue := r;
                 conflicting_content := scheduled_content_at (wall_clock w (clock_reads w));
                 severity :=
                   if bool_decide (urgency i = "high") then "CRITICAL" else "MODERATE";
                 detected_at := wall_clock w (S (S (S (clock_reads w)))) |} w1)
    as (w2 & E2 & F2).
  destruct F1 as (C1 & R1 & G1 & M1 & I1 & H1).
  destruct F2 as (C2 & R2 & G2 & M2 & I2 & H2).
  eexists _, w1, _, w2. split; [exact E1|]. split; [exact E2|].
  cbn [r_conflict_id decision severity conflict_id detected_at resolution_time].
  split; [reflexivity|].
  split; [intros Hu; case_bool_decide; [reflexivity | contradiction]|].
  split; [intros Hu; case_bool_decide; [contradiction | reflexivity]|].
  split; [reflexivity|].
  split; [rewrite C1, R1; reflexivity|].
  split; [rewrite R2; cbn; rewrite R1; reflexivity|].
  split; [rewrite I2; cbn; rewrite I1; reflexivity|].
  split; [rewrite H2; cbn; rewrite H1; reflexivity|].
  rewrite M2; cbn; rewrite M1; reflexivity.
Qed.

(** [privacy_issue] is urgent: its conflict is resolved by staggering. *)
Lemma resolution_by_urgency_witness :
  exists c w1 res w2,
    detect_channel_conflict 0%nat (world_at tenths_clock) = (Return (Some c), w1) /\
    execute_lightning_protocol c w1 = (Return res, w2) /\
    action (decision res) = "SEGMENT_AND_STAGGER".
Proof.
  destruct (resolution_by_urgency 0%nat (world_at tenths_clock) privacy_issue)
    as (c & w1 & res & w2 & E1 & E2 & _ & H & _).
  - reflexivity.
  - vm_compute. split; reflexivity.
  - exists c, w1, res, w2. split; [exact E1|]. split; [exact E2|].
    apply H. reflexivity.
Defined.

(** X5. Without a conflict nothing is printed and the issue is not looked
    at: whatever the reference, when the schedule and the clock are six
    hours or more apart, [detect_channel_conflict] returns [None] after
    reading the clock twice, and changes nothing else. *)
Theorem no_conflict_is_silent r w :
  hours 6 <=
    Z.abs (wall_clock w (clock_reads w) + hours 2 - wall_clock w (S (clock_reads w))) ->
  exists w',
    detect_channel_conflict r w = (Return None, w') /\
    stdout w' = stdout w /\
    clock_reads w' = (2 + clock_reads w)%nat /\
    issues w' = issues w /\
    decision_history w' = decision_history w /\
    model_calls w' = model_calls w.
Proof.
  intros Hfar. apply not_within_six_hours_spec in Hfar.
  eexists. split; [exact (detect_none r w Hfar)|]. repeat split.
Qed.

(** A clock that jumps nine hours ahead, and a reference to no issue. *)
Lemma no_conflict_is_silent_witness :
  exists w',
    detect_channel_conflict 7%nat (world_at [0; hours 9]) = (Return None, w') /\
    stdout w' = [].
Proof.
  destruct (no_conflict_is_silent 7%nat (world_at [0; hours 9]))
    as (w' & E & Hout & _).
  - vm_compute. discriminate.
  - exists w'. split; [exact E | exact Hout].
Defined.

End Protocol.

(** ** More on the scoring agent *)

Lemma fallback_impact_cases u :
  (u = "low" /\ default 10 (urgency_scores !! u) = 5) \/
  (u = "medium" /\ default 10 (urgency_scores !! u) = 10) \/
  (u = "high" /\ default 10 (urgency_scores !! u) = 15) \/
  (u <> "low" /\ u <> "medium" /\ u <> "high" /\
   default 10 (urgency_scores !! u) = 10).
Proof.
  destruct (decide (u = "low")) as [->|]; [left; now split|].
  destruct (decide (u = "medium")) as [->|]; [right; left; now split|].
  destruct (decide (u = "high")) as [->|]; [right; right; left; now split|].
  right; right; right. repeat (split; [assumption|]).
  unfold urgency_scores.
  now rewrite !lookup_insert_ne, lookup_singleton_ne by congruence.
Qed.

Module ScoringMore.

(** X6. An urgency that is none of low, medium and high is scored like
    medium when the model fails: the impact fallback is 10. *)
Theorem unknown_urgency_scores_ten self r w i :
  issues w !! r = Some i ->
  model_score w (model_calls w) (impact_prompt i) = None ->
  urgency i <> "low" -> urgency i <> "medium" -> urgency i <> "high" ->
  score_impact_growth self r w = (Return 10, tick_model w).
Proof.
  intros Hr E Hl Hm Hh.
  rewrite (score_impact_growth_run self r w i Hr).
  unfold sub_score. rewrite E.
  destruct (fallback_impact_cases (urgency i))
    as [[? _] | [[? _] | [[? _] | (_ & _ & _ & ->)]]];
    [contradiction.. | reflexivity].
Qed.

(** An issue of urgency critical under a model that is down. *)
Lemma unknown_urgency_scores_ten_witness :
  score_impact_growth sample_scorer 0%nat
    (with_issues [fresh_issue "issue_1" "Outage" "Service is down" "ops" "critical" 0]
                 (quiet_world [0])) =
  (Return 10,
   tick_model
     (with_issues [fresh_issue "issue_1" "Outage" "Service is down" "ops" "critical" 0]
                  (quiet_world [0]))).
Proof.
  apply (unknown_urgency_scores_ten sample_scorer 0%nat _
           (fresh_issue "issue_1" "Outage" "Service is down" "ops" "critical" 0));
    [reflexivity | reflexivity | discriminate..].
Defined.

(** X7. One scoring is three calls of the model, never more: whether the
    calls answer, fail or answer nonsense, [calculate_full_mai_score] leaves
    the call counter three higher, reads the clock once, for the timestamp
    of the history entry, and prints four lines. *)
Theorem scoring_calls_model_three_times self r w i :
  issues w !! r = Some i ->
  exists s w' e,
    calculate_full_mai_score self r w = (Return s, w') /\
    model_calls w' = (3 + model_calls w)%nat /\
    clock_reads w' = (1 + clock_reads w)%nat /\
    decision_history w' = decision_history w ++ [e] /\
    h_timestamp e = wall_clock w (clock_reads w) /\
    h_issue_id e = id i /\
    length (stdout w') = (4 + length (stdout w))%nat.
Proof.
  intros Hr.
  destruct (calculate_full_mai_score_run self r w i Hr)
    as (w' & E & _ & Hh & _ & Hc & _ & Hm & Ho).
  eexists _, w', _. split; [exact E|].
  split; [exact Hm|]. split; [exact Hc|]. split; [exact Hh|].
  split; [reflexivity|]. split; [reflexivity|].
  rewrite Ho, length_app. cbn. lia.
Qed.

(** Three calls also when every call fails. *)
Lemma scoring_calls_model_three_times_witness :
  exists s w',
    calculate_full_mai_score sample_scorer 0%nat outage_world = (Return s, w') /\
    model_calls w' = 3%nat.
Proof.
  destruct (scoring_calls_model_three_times sample_scorer 0%nat outage_world
              privacy_issue eq_refl) as (s & w' & e & E & Hm & _).
  exists s, w'. split; [exact E | exact Hm].
Defined.

(** X8. With the model down the total is between 13 and 38, and the
    recommendation is read from the keywords and the urgency: documentation
    only exactly for an issue of urgency low that matches no keyword; never
    tier-2 review for urgency low; tier-2 review needs three keywords at
    least. *)
Theorem outage_recommendation self r w i :
  issues w !! r = Some i ->
  model_down w ->
  exists s w',
    calculate_full_mai_score self r w = (Return s, w') /\
    13 <= total_score s <= 38 /\
    (get_recommendation s = "DOCUMENTATION_ONLY" <->
     keyword_hits i = 0 /\ urgency i = "low") /\
    (urgency i = "low" -> get_recommendation s <> "TIER_2_HUMAN_REVIEW") /\
    (get_recommendation s = "TIER_2_HUMAN_REVIEW" -> 3 <= keyword_hits i).
Proof.
  intros Hr Hdown.
  destruct (calculate_full_mai_score_run self r w i Hr) as (w' & E & _).
  rewrite !sub_score_model_down in E by exact Hdown.
  eexists _, w'. split; [exact E|].
  pose proof (keyword_hits_range i) as Hk.
  unfold get_recommendation, MAIScore_init. cbn [total_score].
  pose proof (fallback_impact_cases (urgency i)) as Hcases.
  set (v := default 10 (urgency_scores !! urgency i)) in *.
  set (m := Z.min (3 * keyword_hits i) 15).
  assert (Hm : (keyword_hits i = 0 -> m = 0) /\ (0 < keyword_hits i -> 3 <= m) /\
               (keyword_hits i < 3 -> m <= 6) /\ 0 <= m <= 15) by (subst m; lia).
  clearbody v m.
  destruct (Z.geb_spec (m + v + 8) 30), (Z.geb_spec (m + v + 8) 15);
    (split; [intuition lia|]); (split; [split|split]); intros;
    try discriminate; try (exfalso; intuition (lia || congruence));
    try (intuition (lia || congruence)).
Qed.

(** [privacy_issue] is urgent and matches two keywords: not documentation
    only. *)
Lemma outage_recommendation_witness :
  exists s w',
    calculate_full_mai_score sample_scorer 0%nat outage_world = (Return s, w') /\
    13 <= total_score s <= 38.
Proof.
  destruct (outage_recommendation sample_scorer 0%nat outage_world privacy_issue
              eq_refl (fun _ _ => eq_refl)) as (s & w' & E & H & _).
  exists s, w'. split; [exact E | exact H].
Defined.

(** X9. The decision history stays sound: if every entry adds up before a
    scoring (its total is the sum of its sub-scores, each in [0,15]), every
    entry adds up after it; the scoring keeps the old entries, in place, and
    appends one. *)
Theorem history_stays_sound self r w i :
  issues w !! r = Some i ->
  Forall entry_adds_up (decision_history w) ->
  exists s w',
    calculate_full_mai_score self r w = (Return s, w') /\
    Forall entry_adds_up (decision_history w') /\
    length (decision_history w') = S (length (decision_history w)) /\
    (forall k e, decision_history w !! k = Some e -> decision_history w' !! k = Some e).
Proof.
  intros Hr Hsound.
  destruct (calculate_full_mai_score_run self r w i Hr) as (w' & E & _ & Hh & _).
  eexists _, w'. split; [exact E|]. rewrite Hh.
  split; [|split].
  - apply Forall_app. split; [exact Hsound|].
    constructor; [|constructor].
    pose proof (keyword_hits_range i).
    pose proof (sub_score_range w (model_calls w) (mission_prompt self i)
                  (Z.min (3 * keyword_hits i) 15) ltac:(lia)).
    pose proof (sub_score_range w (S (model_calls w)) (impact_prompt i) _
                  (fallback_impact_range (urgency i))).
    pose proof (sub_score_range w (S (S (model_calls w))) (risk_prompt i) 8
                  ltac:(lia)).
    unfold entry_adds_up. cbn. lia.
  - rewrite length_app. cbn. lia.
  - intros k e Hk. now apply lookup_app_l_Some.
Qed.

(** The first scoring of a system: the empty history is sound. *)
Lemma history_stays_sound_witness :
  exists s w',
    calculate_full_mai_score sample_scorer 0%nat outage_world = (Return s, w') /\
    Forall entry_adds_up (decision_history w') /\
    length (decision_history w') = 1%nat.
Proof.
  destruct (history_stays_sound sample_scorer 0%nat outage_world privacy_issue
              eq_refl (List.Forall_nil _)) as (s & w' & E & H & L & _).
  exists s, w'. split; [exact E|]. split; [exact H | exact L].
Defined.

End ScoringMore.

(** ** Keyword matching *)

Lemma append_cons c (s1 s2 : string) :
  String c s1 +:+ s2 = String c (s1 +:+ s2).
Proof. reflexivity. Qed.

Lemma append_assoc (s1 s2 s3 : string) :
  (s1 +:+ s2) +:+ s3 = s1 +:+ s2 +:+ s3.
Proof.
  induction s1 as [|c s1 IH]; [reflexivity|].
  now rewrite !append_cons, IH.
Qed.

Lemma contains_app_l sub s1 s2 :
  Text.contains sub s1 = true -> Text.contains sub (s1 +:+ s2) = true.
Proof.
  rewrite !contains_substring. intros (pre & post & ->).
  exists pre, (post +:+ s2). now rewrite !append_assoc.
Qed.

Lemma contains_app_r sub s1 s2 :
  Text.contains sub s2 = true -> Text.contains sub (s1 +:+ s2) = true.
Proof.
  rewrite !contains_substring. intros (pre & post & ->).
  exists (s1 +:+ pre), post. now rewrite !append_assoc.
Qed.

(** A prefix that has no [c] does not reach beyond a [c]. *)
Lemma starts_with_before p s1 c s2 :
  has_char c p = false ->
  Text.starts_with p (s1 +:+ String c s2) = true ->
  Text.starts_with p s1 = true.
Proof.
  revert s1. induction p as [|a p IH]; intros s1 Hc; [reflexivity|].
  cbn [has_char] in Hc. apply orb_false_elim in Hc as [Hac Hp].
  destruct s1 as [|b s1].
  - change ("" +:+ String c s2) with (String c s2).
    cbn [Text.starts_with]. now rewrite Hac.
  - rewrite append_cons. cbn [Text.starts_with].
    destruct (Ascii.eqb a b); [now apply IH | discriminate].
Qed.

(** A text without [c] that occurs in two texts joined by [c] occurs in one
    of them. *)
Lemma contains_across sub s1 c s2 :
  has_char c sub = false ->
  Text.contains sub (s1 +:+ String c s2) = true ->
  Text.contains sub s1 = true \/ Text.contains sub s2 = true.
Proof.
  intros Hc. induction s1 as [|b s1 IH].
  - change ("" +:+ String c s2) with (String c s2).
    cbn [Text.contains]. intros H.
    apply orb_true_iff in H as [H | H]; [|now right].
    left. destruct sub as [|a sub]; [reflexivity|].
    cbn [Text.starts_with] in H. cbn [has_char] in Hc.
    apply orb_false_elim in Hc as [Hac _].
    now rewrite Hac in H.
  - rewrite append_cons. cbn [Text.contains]. intros H.
    apply orb_true_iff in H as [H | H].
    + left. apply orb_true_iff. left.
      now apply (starts_with_before sub (String b s1) c s2).
    + destruct (IH H) as [H1 | H2]; [left | now right].
      apply orb_true_iff. now right.
Qed.

Lemma lower_space : Text.lower " " = " ".
Proof. reflexivity. Qed.

Lemma occurs_contains k s : occurs k s <-> Text.contains k (Text.lower s) = true.
Proof. unfold occurs. now rewrite contains_substring. Qed.

Lemma count_matches_positive {A : Type} (p : A -> bool) (xs : list A) :
  0 < count_matches p xs <-> exists x, In x xs /\ p x = true.
Proof.
  rewrite count_matches_length. split.
  - intros H. destruct (List.filter p xs) as [|x l] eqn:E; [cbn in H; lia|].
    exists x. apply filter_In. rewrite E. now left.
  - intros (x & Hx & Hp).
    assert (Hin : In x (List.filter p xs)) by now apply filter_In.
    destruct (List.filter p xs); [contradiction | cbn; lia].
Qed.

Module Keywords.

(** X10. The mission fallback counts the keywords that occur, in any case,
    in the title or in the content, each keyword once however often it
    occurs: [_fallback_mission_score] returns min(3 * n, 15) for the n
    keywords of the list that occur as a part of the title or as a part of
    the content. *)
Theorem mission_fallback_counts_keywords r w i :
  issues w !! r = Some i ->
  exists ks,
    _fallback_mission_score r w = (Return (Z.min (3 * Z.of_nat (length ks)) 15), w) /\
    List.NoDup ks /\
    forall k, In k ks <->
              In k mission_keywords /\ (occurs k (title i) \/ occurs k (content i)).
Proof.
  intros Hr. exists (matched_keywords i).
  split; [exact (fallback_mission_run r w i Hr)|].
  split.
  - apply List.NoDup_filter. unfold mission_keywords.
    repeat (constructor; [cbn; intuition discriminate|]). constructor.
  - intros k. unfold matched_keywords. rewrite filter_In, !occurs_contains.
    rewrite !lower_app, lower_space.
    split; intros [Hin H]; (split; [exact Hin|]).
    + apply (contains_across k _ " "%char); [|exact H].
      cbn in Hin. decompose [or] Hin; subst; try contradiction; reflexivity.
    + destruct H as [H | H].
      * now apply contains_app_l.
      * apply contains_app_r. change (" " +:+ Text.lower (content i))
          with ("" +:+ " " +:+ Text.lower (content i)).
        apply (contains_app_r k " "). exact H.
Qed.

(** [privacy_issue] matches security, which is in its content, in capitals. *)
Lemma mission_fallback_counts_keywords_witness :
  exists ks,
    _fallback_mission_score 0%nat outage_world =
      (Return (Z.min (3 * Z.of_nat (length ks)) 15), outage_world) /\
    In "security" ks.
Proof.
  destruct (mission_fallback_counts_keywords 0%nat outage_world privacy_issue eq_refl)
    as (ks & E & _ & H).
  exists ks. split; [exact E|]. apply H. split.
  - cbn. tauto.
  - right. exists "the change weakens account ", " for every user.". reflexivity.
Defined.

(** X11. The monitor keeps a sample exactly when its urgency is medium or
    high, or one of the monitor keywords occurs, in any case, in its title,
    a space and its content put together. *)
Theorem relevant_iff issue_data :
  _is_relevant_issue issue_data = true <->
  d_urgency issue_data = "medium" \/ d_urgency issue_data = "high" \/
  exists k, In k monitor_keywords /\
            occurs k (d_title issue_data +:+ " " +:+ d_content issue_data).
Proof.
  unfold _is_relevant_issue. cbv zeta.
  rewrite orb_true_iff, bool_decide_eq_true.
  rewrite Z.gtb_lt, count_matches_positive.
  rewrite !elem_of_cons, elem_of_nil.
  setoid_rewrite occurs_contains. tauto.
Qed.

End Keywords.

(** ** The store of issues and the monitor *)

(** The loop of the monitor over any samples. *)
Lemma detect_all_run samples :
  forall acc w,
  exists created w',
    detect_all samples acc w =
      (Return (acc ++ seq (length (issues w)) (length created)), w') /\
    issues w' = issues w ++ created /\
    Forall2 made_from (List.filter _is_relevant_issue samples) created /\
    clock_reads w' = (2 * length created + clock_reads w)%nat /\
    length (stdout w') = (length created + length (stdout w))%nat /\
    wall_clock w' = wall_clock w /\
    generate_content w' = generate_content w /\
    model_calls w' = model_calls w /\
    decision_history w' = decision_history w.
Proof.
  induction samples as [|d rest IH]; intros acc w.
  - exists [], w. cbn. rewrite !app_nil_r. repeat split. constructor.
  - cbn [detect_all List.filter].
    destruct (_is_relevant_issue d).
    + step (Issue_init_run (d_title d) (d_content d) (d_source d) (d_urgency d) w).
      cbv zeta.
      set (c := fresh_issue _ (d_title d) (d_content d) (d_source d) (d_urgency d) _).
      set (w1 := with_issues _ _).
      assert (H1 : issues w1 !! length (issues w) = Some c) by apply lookup_created.
      step (deref_valid _ _ _ H1).
      step (print_run ("   📥 Detected: " +:+ Text.take 50 (title c) +:+ "...") w1).
      set (w2 := with_stdout _ w1).
      destruct (IH (acc ++ [length (issues w)]) w2)
        as (created & w' & E & Hi & Hm & Hc & Ho & Hw & Hg & Hn & Hh).
      exists (c :: created), w'.
      assert (Hlen : length (issues w2) = S (length (issues w))).
      { subst w2 w1. cbn. rewrite length_app. cbn. lia. }
      rewrite Hlen in E.
      split; [etrans; [exact E|]; cbn [length seq]; now rewrite <- app_assoc|].
      split; [rewrite Hi; subst w2 w1; cbn; now rewrite <- app_assoc|].
      split; [constructor; [repeat split | exact Hm]|].
      split; [rewrite Hc; subst w2 w1; cbn; lia|].
      split; [rewrite Ho; subst w2 w1; cbn; rewrite length_app; cbn; lia|].
      repeat split; assumption.
    + apply IH.
Qed.

Module Store.

(** X12. Creating an issue stores a new object and touches no other: the
    reference returned was free and now holds an issue with the title,
    content, source and urgency given, no score and the status detected;
    every issue stored before is still there, unchanged; the clock is read
    twice, first for the identifier, in whole seconds, then for the
    timestamp. *)
Theorem issue_creation title content source urgency w :
  exists r w' created,
    Issue_init title content source urgency w = (Return r, w') /\
    issues w !! r = None /\
    issues w' !! r = Some created /\
    made_from {| d_title := title; d_content := content;
                 d_source := source; d_urgency := urgency |} created /\
    id created = "issue_" +:+ pretty (wall_clock w (clock_reads w) `quot` 1000000) /\
    timestamp created = wall_clock w (S (clock_reads w)) /\
    (forall r' old, issues w !! r' = Some old -> issues w' !! r' = Some old) /\
    length (issues w') = S (length (issues w)) /\
    clock_reads w' = (2 + clock_reads w)%nat /\
    decision_history w' = decision_history w /\
    stdout w' = stdout w.
Proof.
  eexists _, _, _. split; [apply Issue_init_run|]. cbv zeta.
  cbn [issues with_issues tick_clock clock_reads decision_history stdout].
  split; [apply lookup_ge_None_2; lia|].
  split; [apply lookup_created|].
  split; [repeat split|]. split; [reflexivity|]. split; [reflexivity|].
  split; [intros r' old H; now apply lookup_app_l_Some|].
  split; [rewrite length_app; cbn; lia|].
  repeat split.
Qed.

(** X13. The loop of the monitor, for any list of samples: it creates one
    issue for each sample that is relevant, in the order of the samples, and
    none for the others; it returns the references of the new issues after
    those it was given; the issues stored before are kept; it reads the
    clock twice and prints one line for each issue it creates, and leaves
    the decision history and the model alone. *)
Theorem monitor_creates_relevant_issues samples acc w :
  exists created w',
    detect_all samples acc w =
      (Return (acc ++ seq (length (issues w)) (length created)), w') /\
    issues w' = issues w ++ created /\
    Forall2 made_from (List.filter _is_relevant_issue samples) created /\
    length created = length (List.filter _is_relevant_issue samples) /\
    clock_reads w' = (2 * length created + clock_reads w)%nat /\
    length (stdout w') = (length created + length (stdout w))%nat /\
    decision_history w' = decision_history w /\
    model_calls w' = model_calls w.
Proof.
  destruct (detect_all_run samples acc w)
    as (created & w' & E & Hi & Hm & Hc & Ho & _ & _ & Hn & Hh).
  exists created, w'. split; [exact E|]. split; [exact Hi|].
  split; [exact Hm|]. split; [symmetry; exact (Forall2_length _ _ _ Hm)|].
  repeat split; assumption.
Qed.

End Store.

(** ** Reading the answer of the model *)

Lemma pretty_N_char_digit m :
  (m < 10)%N ->
  Text.digit_value (pretty_N_char m) = Some (Z.of_N m) /\
  Text.is_whitespace (pretty_N_char m) = false.
Proof.
  intros H.
  assert (m = 0 \/ m = 1 \/ m = 2 \/ m = 3 \/ m = 4 \/ m = 5 \/ m = 6 \/
          m = 7 \/ m = 8 \/ m = 9)%N as Hm by lia.
  decompose [or] Hm; subst; split; reflexivity.
Qed.

(** The digits [pretty_N_go] puts before a text: there are as many as the
    number has decimal places, and, read back, they extend the number read
    so far by the number printed. *)
Lemma digits_of_pretty_N_go x :
  exists L,
    (x = 0%N -> L = 0) /\
    ((0 < x)%N -> 1 <= L /\ 10 ^ (L - 1) <= Z.of_N x) /\
    forall s,
      Text.digit_count (pretty_N_go x s) = L + Text.digit_count s /\
      forall acc,
        Text.digits_from acc (pretty_N_go x s) =
        Text.digits_from (acc * 10 ^ L + Z.of_N x) s.
Proof.
  induction (N.lt_wf_0 x) as [x _ IH].
  destruct (N.eq_dec x 0%N) as [-> | Hx].
  - exists 0. split; [reflexivity|]. split; [lia|].
    intros s. rewrite pretty_N_go_0. split; [lia|]. intros acc. f_equal. lia.
  - destruct (IH (x `div` 10)%N) as (L & H0 & Hpos & H).
    { apply N.div_lt; lia. }
    pose proof (N.div_mod x 10 ltac:(lia)) as Hdm.
    pose proof (N.mod_lt x 10 ltac:(lia)) as Hmod.
    assert (Hx10 : Z.of_N x = 10 * Z.of_N (x `div` 10) + Z.of_N (x `mod` 10)) by lia.
    assert (HL : 0 <= L).
    { destruct (N.eq_dec (x `div` 10)%N 0%N) as [E | E]; [rewrite (H0 E); lia|].
      apply N.neq_0_lt_0 in E. destruct (Hpos E). lia. }
    exists (L + 1). split; [intros ->; contradiction|]. split.
    + intros _. split; [lia|]. replace (L + 1 - 1) with L by lia.
      destruct (N.eq_dec (x `div` 10)%N 0%N) as [E | E].
      * rewrite (H0 E). change (10 ^ 0) with 1. lia.
      * apply N.neq_0_lt_0 in E. destruct (Hpos E) as [H1 Hle].
        replace L with (1 + (L - 1)) by lia.
        rewrite Z.pow_add_r by lia. change (10 ^ 1) with 10.
        rewrite Hx10.
        apply Z.le_trans with (10 * Z.of_N (x `div` 10)).
        -- apply Z.mul_le_mono_nonneg_l; [lia | exact Hle].
        -- pose proof (N2Z.is_nonneg (x `mod` 10)) as Hm0.
           clear - Hm0. lia.
    + intros s. rewrite pretty_N_go_step by lia.
      destruct (H (String (pretty_N_char (x `mod` 10)) s)) as [Hc Hd].
      destruct (pretty_N_char_digit (x `mod` 10)%N Hmod) as [Hv _].
      split.
      * rewrite Hc. cbn [Text.digit_count]. rewrite Hv. lia.
      * intros acc. rewrite Hd. cbn [Text.digits_from]. rewrite Hv. f_equal.
        rewrite Z.pow_add_r by lia. change (10 ^ 1) with 10. lia.
Qed.

Lemma no_whitespace_pretty_N_go x :
  forall s, no_whitespace s = true -> no_whitespace (pretty_N_go x s) = true.
Proof.
  induction (N.lt_wf_0 x) as [x _ IH]. intros s Hs.
  destruct (N.eq_dec x 0%N) as [-> | Hx]; [now rewrite pretty_N_go_0|].
  rewrite pretty_N_go_step by lia.
  apply IH; [apply N.div_lt; lia|].
  cbn [no_whitespace].
  destruct (pretty_N_char_digit (x `mod` 10)%N) as [_ ->]; [apply N.mod_lt; lia|].
  exact Hs.
Qed.

(** A number above zero is printed with a digit first. *)
Lemma pretty_N_go_head x :
  (0 < x)%N ->
  forall s, exists c t d,
    pretty_N_go x s = String c t /\ Text.digit_value c = Some d.
Proof.
  induction (N.lt_wf_0 x) as [x _ IH]. intros Hx s.
  rewrite pretty_N_go_step by lia.
  destruct (N.eq_dec (x `div` 10)%N 0%N) as [E | Hq].
  - rewrite E, pretty_N_go_0.
    destruct (pretty_N_char_digit (x `mod` 10)%N) as [Hd _]; [apply N.mod_lt; lia|].
    eexists _, _, _. split; [reflexivity | exact Hd].
  - apply IH; [apply N.div_lt; lia | now apply N.neq_0_lt_0].
Qed.

(** A word that starts with a digit has no sign. *)
Lemma int_of_word_digit_first c t d :
  Text.digit_value c = Some d ->
  Text.int_of_word (String c t) = Text.unsigned_literal (String c t) /\
  Text.is_whitespace c = false.
Proof.
  destruct c as [[] [] [] [] [] [] [] []]; intros H;
    try discriminate H; split; reflexivity.
Qed.

(** Within the limit of the interpreter a literal that starts with a digit
    is read digit by digit. *)
Lemma unsigned_literal_within_limit c t d :
  Text.digit_value c = Some d ->
  Text.digit_count (String c t) <= Text.int_max_str_digits ->
  Text.unsigned_literal (String c t) = Text.digits_from 0 (String c t).
Proof.
  intros Hd Hc. unfold Text.unsigned_literal.
  destruct (Z.ltb_spec Text.int_max_str_digits (Text.digit_count (String c t)));
    [lia|].
  cbn [Text.digits_from]. rewrite Hd. f_equal.
Qed.

Lemma int_of_word_pretty_pos p :
  Z.pos p < 10 ^ Text.int_max_str_digits ->
  Text.int_of_word (pretty (N.pos p)) = Some (Z.pos p) /\
  Text.unsigned_literal (pretty (N.pos p)) = Some (Z.pos p) /\
  no_whitespace (pretty (N.pos p)) = true /\
  exists c t, pretty (N.pos p) = String c t /\ Text.is_whitespace c = false.
Proof.
  intros Hbound.
  unfold pretty, pretty_N. rewrite decide_False by discriminate.
  destruct (pretty_N_go_head (N.pos p) ltac:(lia) "") as (c & t & d & E & Hd).
  destruct (int_of_word_digit_first c t d Hd) as [Hi Hw].
  destruct (digits_of_pretty_N_go (N.pos p)) as (L & _ & Hpos & H).
  destruct (Hpos ltac:(lia)) as [HL Hle].
  destruct (H "") as [Hc Hv].
  assert (Hlimit : L <= Text.int_max_str_digits).
  { destruct (Z.le_gt_cases L Text.int_max_str_digits) as [Hok | Hbig]; [exact Hok|].
    exfalso.
    assert (10 ^ Text.int_max_str_digits <= 10 ^ (L - 1))
      by (apply Z.pow_le_mono_r; unfold Text.int_max_str_digits in *; lia).
    change (Z.of_N (N.pos p)) with (Z.pos p) in Hle. lia. }
  assert (Hu : Text.unsigned_literal (pretty_N_go (N.pos p) "") = Some (Z.pos p)).
  { rewrite E, (unsigned_literal_within_limit c t d Hd).
    - rewrite <- E, Hv. cbn. f_equal.
    - rewrite <- E, Hc. cbn [Text.digit_count]. lia. }
  split; [|split; [|split]].
  - now rewrite E, Hi, <- E.
  - exact Hu.
  - now apply no_whitespace_pretty_N_go.
  - now exists c, t.
Qed.

(** [int(str(n))] is [n] for a number within the limit of the interpreter;
    the numeral has no whitespace and is not empty. *)
Lemma int_of_word_pretty (n : Z) :
  Z.abs n < 10 ^ Text.int_max_str_digits ->
  Text.int_of_word (pretty n) = Some n /\
  no_whitespace (pretty n) = true /\
  exists c t, pretty n = String c t /\ Text.is_whitespace c = false.
Proof.
  intros Hbound. destruct n as [|p|p].
  - split; [reflexivity|]. split; [reflexivity|]. now exists "0"%char, "".
  - destruct (int_of_word_pretty_pos p Hbound) as (Hi & _ & Hw & H).
    split; [exact Hi|]. split; [exact Hw | exact H].
  - destruct (int_of_word_pretty_pos p Hbound) as (_ & Hu & Hw & _).
    change (pretty (Z.neg p)) with ("-" +:+ pretty (N.pos p)).
    split; [|split].
    + change (Text.int_of_word ("-" +:+ pretty (N.pos p)))
        with (Z.opp <$> Text.unsigned_literal (pretty (N.pos p))).
      now rewrite Hu.
    + change ("-" +:+ pretty (N.pos p)) with (String "-" (pretty (N.pos p))).
      cbn [no_whitespace]. exact Hw.
    + now exists "-"%char, (pretty (N.pos p)).
Qed.

Lemma lstrip_blank pad s :
  is_blank pad = true -> Text.lstrip (pad +:+ s) = Text.lstrip s.
Proof.
  induction pad as [|c pad IH]; [reflexivity|].
  cbn [is_blank]. intros H. apply andb_true_iff in H as [Hc Hp].
  rewrite append_cons. cbn [Text.lstrip]. rewrite Hc. now apply IH.
Qed.

Lemma token_word word rest :
  no_whitespace word = true -> ends_word rest = true ->
  Text.token (word +:+ rest) = word.
Proof.
  intros Hw Hr. induction word as [|c word IH].
  - destruct rest as [|c rest]; [reflexivity|].
    cbn [ends_word] in Hr. change ("" +:+ String c rest) with (String c rest).
    cbn [Text.token]. now rewrite Hr.
  - cbn [no_whitespace] in Hw. apply andb_true_iff in Hw as [Hc Hw].
    rewrite append_cons. cbn [Text.token].
    apply negb_true_iff in Hc. rewrite Hc. now rewrite IH.
Qed.

(** The first word of a numeral between blanks and further words is the
    numeral, and reads as its number. *)
Lemma parse_score_numeral pad (n : Z) rest w :
  Z.abs n < 10 ^ Text.int_max_str_digits ->
  is_blank pad = true -> ends_word rest = true ->
  parse_score (pad +:+ pretty n +:+ rest) w = (Return n, w).
Proof.
  intros Hn Hp Hr.
  destruct (int_of_word_pretty n Hn) as (Hi & Hw & c & t & E & Hc).
  unfold parse_score, Text.first_word.
  rewrite lstrip_blank by exact Hp.
  assert (Hl : Text.lstrip (pretty n +:+ rest) = pretty n +:+ rest).
  { rewrite E, append_cons. cbn [Text.lstrip]. now rewrite Hc. }
  rewrite Hl, token_word by assumption.
  rewrite E in *. now rewrite Hi.
Qed.

(** The limit of the interpreter: 4300 digits are read, 4301 are not. *)
Lemma int_of_word_digit_limit :
  Text.int_of_word (string_times "7" 4300) <> None /\
  Text.int_of_word (string_times "7" 4301) = None /\
  Text.int_of_word ("-" +:+ string_times "7" 4300) <> None /\
  Text.int_of_word (string_times "0" 4301) = None.
Proof.
  vm_compute. repeat split; discriminate.
Qed.

Lemma first_word_blank s : is_blank s = true -> Text.first_word s = None.
Proof.
  intros H. unfold Text.first_word.
  assert (Hl : Text.lstrip s = "").
  { induction s as [|c s IH]; [reflexivity|].
    cbn [is_blank] in H. apply andb_true_iff in H as [Hc Hs].
    cbn [Text.lstrip]. rewrite Hc. now apply IH. }
  now rewrite Hl.
Qed.

Lemma model_score_numeral w k prompt pad (n : Z) rest :
  Z.abs n < 10 ^ Text.int_max_str_digits ->
  is_blank pad = true -> ends_word rest = true ->
  generate_content w k prompt = Some (pad +:+ pretty n +:+ rest) ->
  model_score w k prompt = Some n.
Proof.
  intros Hn Hp Hr E.
  pose proof (parse_score_numeral pad n rest w Hn Hp Hr) as H.
  unfold model_score. rewrite E. unfold parse_score in H.
  destruct (Text.first_word (pad +:+ pretty n +:+ rest)) as [word|];
    [|discriminate H].
  destruct (Text.int_of_word word) as [m|]; [|discriminate H].
  injection H as ->. reflexivity.
Qed.

Lemma model_score_blank w k prompt text :
  is_blank text = true ->
  generate_content w k prompt = Some text ->
  model_score w k prompt = None.
Proof.
  intros Hb E. unfold model_score. now rewrite E, first_word_blank.
Qed.

Module ModelAnswers.

(** X14. An answer of the model is honoured when it starts with a numeral
    the interpreter reads: if the model answers the decimal numeral of an
    integer n below 10^4300 in absolute value (a numeral of 4300 digits at
    most), after any whitespace and alone or followed by whitespace and
    anything else, the sub-score is n, or 15 if n is above 15, or 0 if n is
    below 0; so for each of the three scoring methods. *)
Theorem numeral_answer_is_clamped self r w i pad (n : Z) rest :
  issues w !! r = Some i ->
  Z.abs n < 10 ^ Text.int_max_str_digits ->
  is_blank pad = true ->
  ends_word rest = true ->
  (generate_content w (model_calls w) (mission_prompt self i) =
     Some (pad +:+ pretty n +:+ rest) ->
   score_mission_alignment self r w = (Return (Z.min (Z.max n 0) 15), tick_model w)) /\
  (generate_content w (model_calls w) (impact_prompt i) =
     Some (pad +:+ pretty n +:+ rest) ->
   score_impact_growth self r w = (Return (Z.min (Z.max n 0) 15), tick_model w)) /\
  (generate_content w (model_calls w) (risk_prompt i) =
     Some (pad +:+ pretty n +:+ rest) ->
   score_risk_evaluation self r w = (Return (Z.min (Z.max n 0) 15), tick_model w)) /\
  (0 <= n <= 15 -> Z.min (Z.max n 0) 15 = n) /\
  (15 < n -> Z.min (Z.max n 0) 15 = 15) /\
  (n < 0 -> Z.min (Z.max n 0) 15 = 0).
Proof.
  intros Hr Hn Hp Hrest.
  split; [|split; [|split]].
  - intros E. rewrite (score_mission_alignment_run self r w i Hr).
    unfold sub_score.
    now rewrite (model_score_numeral _ _ _ pad n rest Hn Hp Hrest E).
  - intros E. rewrite (score_impact_growth_run self r w i Hr).
    unfold sub_score.
    now rewrite (model_score_numeral _ _ _ pad n rest Hn Hp Hrest E).
  - intros E. rewrite (score_risk_evaluation_run self r w i Hr).
    unfold sub_score.
    now rewrite (model_score_numeral _ _ _ pad n rest Hn Hp Hrest E).
  - lia.
Qed.

(** The model answers 23, on a line of its own after a space: 15. *)
Lemma numeral_answer_is_clamped_witness :
  score_risk_evaluation sample_scorer 0%nat
    {| wall_clock := fun _ => 0; clock_reads := 0;
       generate_content := fun _ _ => Some (" " +:+ pretty 23 +:+ Text.nl);
       model_calls := 0; stdout := []; issues := [privacy_issue];
       decision_history := [] |} =
  (Return 15,
   tick_model
     {| wall_clock := fun _ => 0; clock_reads := 0;
        generate_content := fun _ _ => Some (" " +:+ pretty 23 +:+ Text.nl);
        model_calls := 0; stdout := []; issues := [privacy_issue];
        decision_history := [] |}).
Proof.
  destruct (numeral_answer_is_clamped sample_scorer 0%nat
              {| wall_clock := fun _ => 0; clock_reads := 0;
                 generate_content := fun _ _ => Some (" " +:+ pretty 23 +:+ Text.nl);
                 model_calls := 0; stdout := []; issues := [privacy_issue];
                 decision_history := [] |}
              privacy_issue " " 23 Text.nl eq_refl)
    as (_ & _ & H & _); [vm_compute; reflexivity | reflexivity | reflexivity |].
  exact (H eq_refl).
Defined.

(** X15. An answer without a word is a failure like any other: if the
    model answers the empty text, or whitespace only, each scoring method
    returns its fallback, 8 for the risk. *)
Theorem blank_answer_falls_back self r w i text :
  issues w !! r = Some i ->
  is_blank text = true ->
  (generate_content w (model_calls w) (mission_prompt self i) = Some text ->
   score_mission_alignment self r w =
   (Return (Z.min (3 * keyword_hits i) 15), tick_model w)) /\
  (generate_content w (model_calls w) (impact_prompt i) = Some text ->
   score_impact_growth self r w =
   (Return (default 10 (urgency_scores !! urgency i)), tick_model w)) /\
  (generate_content w (model_calls w) (risk_prompt i) = Some text ->
   score_risk_evaluation self r w = (Return 8, tick_model w)).
Proof.
  intros Hr Hb. split; [|split]; intros E.
  - rewrite (score_mission_alignment_run self r w i Hr).
    unfold sub_score. now rewrite (model_score_blank _ _ _ text Hb E).
  - rewrite (score_impact_growth_run self r w i Hr).
    unfold sub_score. now rewrite (model_score_blank _ _ _ text Hb E).
  - rewrite (score_risk_evaluation_run self r w i Hr).
    unfold sub_score. now rewrite (model_score_blank _ _ _ text Hb E).
Qed.

(** The model answers a newline. *)
Lemma blank_answer_falls_back_witness :
  score_risk_evaluation sample_scorer 0%nat
    {| wall_clock := fun _ => 0; clock_reads := 0;
       generate_content := fun _ _ => Some Text.nl;
       model_calls := 0; stdout := []; issues := [privacy_issue];
       decision_history := [] |} =
  (Return 8,
   tick_model
     {| wall_clock := fun _ => 0; clock_reads := 0;
        generate_content := fun _ _ => Some Text.nl;
        model_calls := 0; stdout := []; issues := [privacy_issue];
        decision_history := [] |}).
Proof.
  destruct (blank_answer_falls_back sample_scorer 0%nat
              {| wall_clock := fun _ => 0; clock_reads := 0;
                 generate_content := fun _ _ => Some Text.nl;
                 model_calls := 0; stdout := []; issues := [privacy_issue];
                 decision_history := [] |}
              privacy_issue Text.nl eq_refl eq_refl)
    as (_ & _ & H).
  exact (H eq_refl).
Defined.

End ModelAnswers.

(** ** The steps of a cycle *)

Lemma bind_bind {A B C : Type} (m : M A) (f : A -> M B) (g : B -> M C) w :
  bind (bind m f) g w = bind m (fun x => bind (f x) g) w.
Proof. unfold bind. destruct (m w) as [[a | e] w']; reflexivity. Qed.












(** ** A full cycle *)

Module Cycle.





End Cycle.

(** ** The rendering of the cycle time *)

(** [format_1f] on the seconds of some time differences: a quarter of a
    second lies half way in binary64 and goes to the even digit; 0.35 s and
    0.45 s do not, and go to the nearer one; a negative difference that
    rounds to zero keeps its sign. *)
Lemma format_1f_examples :
  map (fun diff => format_1f (total_seconds diff))
      [0; 49999; 50000; 250000; 350000; 450000; 750000; 999999; 1049999;
       2050000; 99950000; 3600000000; -1; -250000; -1500000] =
  ["0.0"; "0.0"; "0.1"; "0.2"; "0.3"; "0.5"; "0.8"; "1.0"; "1.0";
   "2.0"; "100.0"; "3600.0"; "-0.0"; "-0.2"; "-1.5"].
Proof. vm_compute. reflexivity. Qed.
